(** * Feature-store backed prompt templates

    A shallow embedding of the notebook
    [docs/extras/modules/model_io/prompts/prompt_templates/connecting_to_a_feature_store.ipynb]:
    the four [StringPromptTemplate] subclasses it defines (Feast, Tecton,
    Featureform, AzureML) and the [PromptTemplate] they delegate to.

    Python objects are modelled as follows.
    - A keyword mapping ([**kwargs]) is a [gmap string value]; it is a fresh
      dictionary per call, so it is threaded by value through the method body.
    - Exceptions are an explicit result type; every method runs in a small
      state-and-exception monad whose state holds the names the method reads
      (module globals or [self] attributes) and a ghost trace of the calls
      made to the feature store and to the wrapped template. *)

From Stdlib Require Import ZArith String Ascii List.
From stdpp Require Import base strings gmap pretty.

(** ** Python values, exceptions and the method monad *)

Module Py.

(** Scalars that flow through the notebook. The code never computes with a
    float, it only hands it to [str.format]; a float is therefore carried by
    its shortest round-trip literal, which is what [format] prints. *)
Inductive value : Type :=
| VInt (z : Z)
| VFloat (repr : string)
| VStr (s : string).

(** [format(v, empty_spec)], i.e. [str(v)]. *)
Definition str (v : value) : string :=
  match v with
  | VInt z => pretty z
  | VFloat r => r
  | VStr s => s
  end.

Inductive exn : Type :=
| KeyError (key : value)
| IndexError (msg : string)
| TypeError (msg : string)
| ValueError (msg : string)
| ExternalError (cls msg : string).

Inductive result (A : Type) : Type :=
| Ok (a : A)
| Raise (e : exn).
Arguments Ok {A} a.
Arguments Raise {A} e.

(** Ghost events: one per call that leaves the method body. *)
Inductive event : Type :=
| Lookup (entity : value)
| TemplateFormat (mapping : gmap string value).

Record state (G : Type) : Type := State {
  globals : G;
  trace : list event
}.
Arguments State {G} globals trace.
Arguments globals {G} s.
Arguments trace {G} s.

Definition M (G A : Type) : Type := state G -> result A * state G.

Section Monad.
Context {G : Type}.

Definition ret {A} (a : A) : M G A := fun st => (Ok a, st).

Definition bind {A B} (m : M G A) (k : A -> M G B) : M G B := fun st =>
  match m st with
  | (Ok a, st') => k a st'
  | (Raise e, st') => (Raise e, st')
  end.

Definition raise {A} (e : exn) : M G A := fun st => (Raise e, st).

Definition lift {A} (r : result A) : M G A := fun st => (r, st).

(** Read a global name or an attribute of [self]. *)
Definition read {A} (f : G -> A) : M G A := fun st => (Ok (f (globals st)), st).

Definition emit (e : event) : M G unit := fun st =>
  (Ok tt, State (globals st) (trace st ++ [e])).

(** [d.pop(k)] *)
Definition pop (k : string) (d : gmap string value)
  : M G (value * gmap string value) :=
  match d !! k with
  | Some v => ret (v, delete k d)
  | None => raise (KeyError (VStr k))
  end.

(** [d[k]] on a dictionary *)
Definition getitem {V} (d : gmap string V) (k : string) : M G V :=
  match d !! k with
  | Some v => ret v
  | None => raise (KeyError (VStr k))
  end.

(** [l[0]] on a list *)
Definition getitem0 (l : list value) : M G value :=
  match l with
  | v :: _ => ret v
  | [] => raise (IndexError "list index out of range")
  end.
End Monad.

#[global] Instance M_ret {G} : MRet (M G) := fun A a => ret a.
#[global] Instance M_bind {G} : MBind (M G) := fun A B k m => bind m k.

(** Number of feature-store calls, resp. template calls, in a trace. *)
Definition is_lookup (e : event) : bool :=
  match e with Lookup _ => true | TemplateFormat _ => false end.
Definition is_template_format (e : event) : bool :=
  match e with TemplateFormat _ => true | Lookup _ => false end.
Definition lookups (tr : list event) : list event := List.filter is_lookup tr.
Definition template_calls (tr : list event) : list event :=
  List.filter is_template_format tr.

End Py.
Import Py.

(** ** The prompt template *)

Module PromptTemplate.

(** Modelled from the spec: [langchain.prompts.PromptTemplate] is imported by
    the notebook and its source is not part of it. Following the data model,
    a template is ordered text with embedded placeholder names;
    [from_template] fails on unbalanced placeholder delimiters; [format]
    fails with a missing-key error when a placeholder of the pattern is
    absent from the mapping and has no side effect. *)
Inductive segment : Type :=
| Text (s : string)
| Placeholder (name : string).

Definition t : Type := list segment.

Definition add_char (c : ascii) (tpl : t) : t :=
  match tpl with
  | Text s :: rest => Text (String c s) :: rest
  | _ => Text (String c EmptyString) :: tpl
  end.

Definition unbalanced : exn := ValueError "unbalanced placeholder delimiters".

(** Modelled from the spec: the reading of a pattern, absent from the
    notebook. One left-to-right pass; [in_field] says whether the scan is
    inside a pair of braces; the string returned is the part of the
    placeholder name read in this mode (empty outside braces). *)
Fixpoint scan (pat : string) (in_field : bool) : result (string * t) :=
  match pat, in_field with
  | EmptyString, false => Ok (EmptyString, [])
  | EmptyString, true => Raise unbalanced
  | String c rest, false =>
      if Ascii.eqb c "{" then
        match scan rest true with
        | Ok (name, tpl) => Ok (EmptyString, Placeholder name :: tpl)
        | Raise e => Raise e
        end
      else if Ascii.eqb c "}" then Raise unbalanced
      else
        match scan rest false with
        | Ok (_, tpl) => Ok (EmptyString, add_char c tpl)
        | Raise e => Raise e
        end
  | String c rest, true =>
      if Ascii.eqb c "}" then
        match scan rest false with
        | Ok (_, tpl) => Ok (EmptyString, tpl)
        | Raise e => Raise e
        end
      else if Ascii.eqb c "{" then Raise unbalanced
      else
        match scan rest true with
        | Ok (name, tpl) => Ok (String c name, tpl)
        | Raise e => Raise e
        end
  end.

(** Modelled from the spec: [PromptTemplate.from_template(text)], which fails
    if the pattern is malformed (unbalanced placeholder delimiters). *)
Definition from_template (pat : string) : result t :=
  match scan pat false with
  | Ok (_, tpl) => Ok tpl
  | Raise e => Raise e
  end.

(** Modelled from the spec: [format(mapping) -> text], which fails with a
    missing-key error if any placeholder in the pattern is absent from the
    mapping, and has no side effect. Values are printed as [str.format]
    prints them with an empty format specification. *)
Fixpoint format (tpl : t) (mapping : gmap string value) : result string :=
  match tpl with
  | [] => Ok EmptyString
  | Text s :: rest =>
      match format rest mapping with
      | Ok out => Ok (s +:+ out)
      | Raise e => Raise e
      end
  | Placeholder name :: rest =>
      match mapping !! name with
      | None => Raise (KeyError (VStr name))
      | Some v =>
          match format rest mapping with
          | Ok out => Ok (str v +:+ out)
          | Raise e => Raise e
          end
      end
  end.

(** The placeholder set P of a template. *)
Fixpoint placeholders (tpl : t) : gset string :=
  match tpl with
  | [] => ∅
  | Text _ :: rest => placeholders rest
  | Placeholder name :: rest => {[ name ]} ∪ placeholders rest
  end.

(** The call [prompt.format( **kwargs )] as seen from a method body. *)
Definition call {G} (tpl : t) (kwargs : gmap string value) : M G string :=
  _ ← emit (TemplateFormat kwargs);
  lift (format tpl kwargs).

(** What the spec's words ask of the output: the pattern text with every
    placeholder occurrence replaced by its mapped value, verbatim
    elsewhere. Stated on the pattern string, not on the parsed template. *)
Fixpoint brace_free (s : string) : Prop :=
  match s with
  | EmptyString => True
  | String c rest => c <> "{"%char /\ c <> "}"%char /\ brace_free rest
  end.

Inductive substituted (mapping : gmap string value) : string -> string -> Prop :=
| subst_end : substituted mapping EmptyString EmptyString
| subst_char c pat out :
    c <> "{"%char -> c <> "}"%char ->
    substituted mapping pat out ->
    substituted mapping (String c pat) (String c out)
| subst_field name v pat out :
    brace_free name ->
    mapping !! name = Some v ->
    substituted mapping pat out ->
    substituted mapping ("{" +:+ name +:+ "}" +:+ pat) (str v +:+ out).

End PromptTemplate.

(** ** Feast *)

Module Feast.

(** The names the method reads from the notebook's globals: [store], whose
    [get_online_features(features=..., entity_rows=...).to_dict()] gives one
    list per column, and [prompt]. *)
Record globals : Type := Globals {
  store : list string -> list (gmap string value) ->
          result (gmap string (list value));
  prompt : PromptTemplate.t
}.

Definition template : string :=
"Given the driver's up to date stats, write them note relaying those stats to them.
If they have a conversation rate above .5, give them a compliment. Otherwise, make a silly joke about chickens at the end to make them feel better

Here are the drivers stats:
Conversation rate: {conv_rate}
Acceptance rate: {acc_rate}
Average Daily Trips: {avg_daily_trips}

Your response:".

(** The cell [prompt = PromptTemplate.from_template(template)]. *)
Definition prompt_cell : result PromptTemplate.t :=
  PromptTemplate.from_template template.

(** The pattern with the three statistics at their placeholders. *)
Definition rendered (conv_rate acc_rate avg_daily_trips : value) : string :=
"Given the driver's up to date stats, write them note relaying those stats to them.
If they have a conversation rate above .5, give them a compliment. Otherwise, make a silly joke about chickens at the end to make them feel better

Here are the drivers stats:
Conversation rate: " +:+ str conv_rate +:+ "
Acceptance rate: " +:+ str acc_rate +:+ "
Average Daily Trips: " +:+ str avg_daily_trips +:+ "

Your response:".

(** A flat feature record as [to_dict()] hands it over: one column per
    feature, holding the value of the single entity row asked for. *)
Definition single_row (record : gmap string value) : gmap string (list value) :=
  (fun v => [v]) <$> record.

Definition features : list string :=
  [ "driver_hourly_stats:conv_rate";
    "driver_hourly_stats:acc_rate";
    "driver_hourly_stats:avg_daily_trips" ].

Definition entity_rows (driver_id : value) : list (gmap string value) :=
  [ {[ "driver_id" := driver_id ]} ].

Definition get_online_features (driver_id : value)
  : M globals (gmap string (list value)) :=
  online ← read store;
  _ ← emit (Lookup driver_id);
  lift (online features (entity_rows driver_id)).

Definition format (kwargs : gmap string value) : M globals string :=
  '(driver_id, kwargs) ← pop "driver_id" kwargs;
  feature_vector ← get_online_features driver_id;
  column ← getitem feature_vector "conv_rate";
  conv_rate ← getitem0 column;
  let kwargs := <["conv_rate" := conv_rate]> kwargs in
  column ← getitem feature_vector "acc_rate";
  acc_rate ← getitem0 column;
  let kwargs := <["acc_rate" := acc_rate]> kwargs in
  column ← getitem feature_vector "avg_daily_trips";
  avg_daily_trips ← getitem0 column;
  let kwargs := <["avg_daily_trips" := avg_daily_trips]> kwargs in
  p ← read prompt;
  PromptTemplate.call p kwargs.

End Feast.

(** ** Tecton *)

Module Tecton.

(** [feature_service.get_online_features(join_keys=...).to_dict()] gives a
    flat dictionary keyed by the feature view's qualified names. *)
Record globals : Type := Globals {
  feature_service : gmap string value -> result (gmap string value);
  prompt : PromptTemplate.t
}.

Definition template : string :=
"Given the vendor's up to date transaction stats, write them a note based on the following rules:

1. If they had a transaction in the last day, write a short congratulations message on their recent sales
2. If no transaction in the last day, but they had a transaction in the last 30 days, playfully encourage them to sell more.
3. Always add a silly joke about chickens at the end

Here are the vendor's stats:
Number of Transactions Last Day: {transaction_count_1d}
Number of Transactions Last 30 Days: {transaction_count_30d}

Your response:".

Definition prompt_cell : result PromptTemplate.t :=
  PromptTemplate.from_template template.

Definition join_keys (user_id : value) : gmap string value :=
  {[ "user_id" := user_id ]}.

Definition get_online_features (user_id : value) : M globals (gmap string value) :=
  online ← read feature_service;
  _ ← emit (Lookup user_id);
  lift (online (join_keys user_id)).

Definition format (kwargs : gmap string value) : M globals string :=
  '(user_id, kwargs) ← pop "user_id" kwargs;
  feature_vector ← get_online_features user_id;
  count_1d ← getitem feature_vector "user_transaction_counts.transaction_count_1d_1d";
  let kwargs := <["transaction_count_1d" := count_1d]> kwargs in
  count_30d ← getitem feature_vector "user_transaction_counts.transaction_count_30d_1d";
  let kwargs := <["transaction_count_30d" := count_30d]> kwargs in
  p ← read prompt;
  PromptTemplate.call p kwargs.

End Tecton.

(** ** Featureform *)

Module Featureform.

(** [client.features(features, entities)] gives the list of feature values. *)
Record globals : Type := Globals {
  client : list (string * string) -> gmap string value -> result (list value);
  prompt : PromptTemplate.t
}.

Definition template : string :=
"Given the amount a user spends on average per transaction, let them know if they are a high roller. Otherwise, make a silly joke about chickens at the end to make them feel better

Here are the user's stats:
Average Amount per Transaction: ${avg_transcation}

Your response:".

Definition prompt_cell : result PromptTemplate.t :=
  PromptTemplate.from_template template.

Definition features (user_id : value) : M globals (list value) :=
  online ← read client;
  _ ← emit (Lookup user_id);
  lift (online [("avg_transactions", "quickstart")] {[ "user" := user_id ]}).

Definition format (kwargs : gmap string value) : M globals string :=
  '(user_id, kwargs) ← pop "user_id" kwargs;
  fpf ← features user_id;
  p ← read prompt;
  PromptTemplate.call p kwargs.

End Featureform.

(** ** AzureML managed feature store *)

Module AzureML.

(** The attributes of [self] the method reads: [prompt], set by [__init__]
    from the template below, and [_feature_set], through which
    [get_online_features(self._feature_set.features, obs)] answers with a
    data frame, here one list per column. *)
Record globals : Type := Globals {
  feature_set : gmap string (list value) -> result (gmap string (list value));
  prompt : PromptTemplate.t
}.

Definition template : string :=
"
            {query}
            ###
            account id = {account_id}
            account age = {account_age}
            account country = {account_country}
            payment rejects 1d per user = {payment_rejects_1d_per_user}
            ###
            ".

(** [prompt_template=PromptTemplate.from_template(template)] in [__init__]. *)
Definition prompt_cell : result PromptTemplate.t :=
  PromptTemplate.from_template template.

(** The pattern with the five values at their placeholders. *)
Definition rendered (query account_id age country rejects : value) : string :=
"
            " +:+ str query +:+ "
            ###
            account id = " +:+ str account_id +:+ "
            account age = " +:+ str age +:+ "
            account country = " +:+ str country +:+ "
            payment rejects 1d per user = " +:+ str rejects +:+ "
            ###
            ".

(** [raise "..."] with a string operand: Python raises this instead. *)
Definition raise_str : exn := TypeError "exceptions must derive from BaseException".

(** [k in d] *)
Definition contains (k : string) (d : gmap string value) : bool :=
  match d !! k with
  | Some _ => true
  | None => false
  end.

(** [pandas.DataFrame({'accountID': [account_id]})] *)
Definition obs (account_id : value) : gmap string (list value) :=
  {[ "accountID" := [account_id] ]}.

Definition get_online_features (account_id : value)
  : M globals (gmap string (list value)) :=
  online ← read feature_set;
  _ ← emit (Lookup account_id);
  lift (online (obs account_id)).

(** [df[column][0]]: the value labelled 0 of a column. *)
Definition cell0 (df : gmap string (list value)) (column : string) : M globals value :=
  series ← getitem df column;
  match series with
  | v :: _ => mret v
  | [] => raise (KeyError (VInt 0))
  end.

Definition format (kwargs : gmap string value) : M globals string :=
  if negb (contains "account_id" kwargs) then raise raise_str
  else
    '(account_id, kwargs) ← pop "account_id" kwargs;
    '(query, kwargs) ←
      (if contains "query" kwargs then pop "query" kwargs
       else mret (VStr EmptyString, kwargs));
    df ← get_online_features account_id;
    let kwargs := <["query" := query]> kwargs in
    let kwargs := <["account_id" := account_id]> kwargs in
    account_age ← cell0 df "accountAge";
    let kwargs := <["account_age" := account_age]> kwargs in
    account_country ← cell0 df "accountCountry";
    let kwargs := <["account_country" := account_country]> kwargs in
    rejects ← cell0 df "numPaymentRejects1dPerUser";
    let kwargs := <["payment_rejects_1d_per_user" := rejects]> kwargs in
    p ← read prompt;
    PromptTemplate.call p kwargs.

End AzureML.

(** ** Observations on a run, and stub feature stores *)

(** The run of [m] from [st] fails with [e] and never calls the template. *)
Definition fails_before_template {G} (m : M G string) (st : state G) (e : exn) : Prop :=
  fst (m st) = Raise e /\
  template_calls (trace (snd (m st))) = template_calls (trace st).

(** The run of [m] from [st] calls the feature store exactly once, for [id]. *)
Definition looks_up_once {G} (m : M G string) (st : state G) (id : value) : Prop :=
  lookups (trace (snd (m st))) = lookups (trace st) ++ [Lookup id].

(** Two runs of [m] in a row: the first leaves the globals as it found them,
    and the second, started where the first ended, returns what the first
    returned. *)
Definition repeatable {G} (m : M G string) (st : state G) : Prop :=
  globals (snd (m st)) = globals st /\
  fst (m (snd (m st))) = fst (m st).

Module Stub.

Definition parsed (pat : string) : PromptTemplate.t :=
  match PromptTemplate.from_template pat with
  | Ok tpl => tpl
  | Raise _ => []
  end.

Definition unreachable : exn := ExternalError "ConnectionError" "feature store unreachable".

Definition driver_stats : gmap string value :=
  {[ "conv_rate" := VFloat "0.47";
     "acc_rate" := VFloat "0.06";
     "avg_daily_trips" := VInt 936 ]}.

Definition feast : state Feast.globals :=
  State (Feast.Globals (fun _ _ => Ok (Feast.single_row driver_stats))
                       (parsed Feast.template)) [].

Definition feast_down : state Feast.globals :=
  State (Feast.Globals (fun _ _ => Raise unreachable) (parsed Feast.template)) [].

Definition tecton : state Tecton.globals :=
  State (Tecton.Globals
           (fun _ => Ok {[ "user_transaction_counts.transaction_count_1d_1d" := VInt 657;
                           "user_transaction_counts.transaction_count_30d_1d" := VInt 20326 ]})
           (parsed Tecton.template)) [].

Definition tecton_down : state Tecton.globals :=
  State (Tecton.Globals (fun _ => Raise unreachable) (parsed Tecton.template)) [].

Definition featureform : state Featureform.globals :=
  State (Featureform.Globals (fun _ _ => Ok [VFloat "25.0"])
                             (parsed Featureform.template)) [].

Definition featureform_down : state Featureform.globals :=
  State (Featureform.Globals (fun _ _ => Raise unreachable)
                             (parsed Featureform.template)) [].

Definition azureml : state AzureML.globals :=
  State (AzureML.Globals
           (fun _ => Ok {[ "accountAge" := [VFloat "563.0"];
                           "accountCountry" := [VStr "GB"];
                           "numPaymentRejects1dPerUser" := [VFloat "15.0"] ]})
           (parsed AzureML.template)) [].

Definition azureml_down : state AzureML.globals :=
  State (AzureML.Globals (fun _ => Raise unreachable) (parsed AzureML.template)) [].

End Stub.

(** ** Further observations and expected texts *)

(** The events the run of [m] from [st] appends to the trace. *)
Definition added {G} (m : M G string) (st : state G) (evs : list event) : Prop :=
  trace (snd (m st)) = trace st ++ evs.

(** The error of the first of [columns] that [cell] cannot read from a
    store answer, in the order the method body reads them. *)
Fixpoint first_unreadable (cell : string -> option exn) (columns : list string)
  : option exn :=
  match columns with
  | [] => None
  | c :: rest =>
      match cell c with
      | Some e => Some e
      | None => first_unreadable cell rest
      end
  end.

(** [d[column][0]] on Feast's dictionary of lists. *)
Definition feast_cell_error (fv : gmap string (list value)) (column : string)
  : option exn :=
  match fv !! column with
  | None => Some (KeyError (VStr column))
  | Some [] => Some (IndexError "list index out of range")
  | Some (_ :: _) => None
  end.

(** [d[key]] on Tecton's flat dictionary. *)
Definition tecton_cell_error (fv : gmap string value) (key : string) : option exn :=
  match fv !! key with
  | None => Some (KeyError (VStr key))
  | Some _ => None
  end.

(** [df[column][0]] on AzureML's data frame. *)
Definition azureml_cell_error (df : gmap string (list value)) (column : string)
  : option exn :=
  match df !! column with
  | None => Some (KeyError (VStr column))
  | Some [] => Some (KeyError (VInt 0))
  | Some (_ :: _) => None
  end.

Definition feast_columns : list string :=
  [ "conv_rate"; "acc_rate"; "avg_daily_trips" ].

Definition tecton_keys : list string :=
  [ "user_transaction_counts.transaction_count_1d_1d";
    "user_transaction_counts.transaction_count_30d_1d" ].

Definition azureml_columns : list string :=
  [ "accountAge"; "accountCountry"; "numPaymentRejects1dPerUser" ].

Module Expected.

(** The Tecton pattern with the two counts at their placeholders. *)
Definition tecton (count_1d count_30d : value) : string :=
"Given the vendor's up to date transaction stats, write them a note based on the following rules:

1. If they had a transaction in the last day, write a short congratulations message on their recent sales
2. If no transaction in the last day, but they had a transaction in the last 30 days, playfully encourage them to sell more.
3. Always add a silly joke about chickens at the end

Here are the vendor's stats:
Number of Transactions Last Day: " +:+ str count_1d +:+ "
Number of Transactions Last 30 Days: " +:+ str count_30d +:+ "

Your response:".

(** The Featureform pattern with an amount at its placeholder. *)
Definition featureform (avg_transcation : value) : string :=
"Given the amount a user spends on average per transaction, let them know if they are a high roller. Otherwise, make a silly joke about chickens at the end to make them feel better

Here are the user's stats:
Average Amount per Transaction: $" +:+ str avg_transcation +:+ "

Your response:".

End Expected.

(** ** The notebook's shared names *)

Module Notebook.

(** The module namespace as the three classes that read it see it: the
    clients [store], [feature_service] and [client], and the one name
    [prompt], which the Feast, Tecton and Featureform sections bind in turn.
    A method body looks [prompt] up when it runs, not when its class is
    defined. The namespace is taken after the first template cell has run. *)
Record namespace : Type := Namespace {
  store : list string -> list (gmap string value) ->
          result (gmap string (list value));
  feature_service : gmap string value -> result (gmap string value);
  client : list (string * string) -> gmap string value -> result (list value);
  prompt : PromptTemplate.t
}.

(** [prompt = PromptTemplate.from_template(template)]: the name is rebound
    only if the right-hand side evaluates. *)
Definition bind_prompt (template : string) : M namespace unit := fun st =>
  match PromptTemplate.from_template template with
  | Ok p =>
      (Ok tt,
       State (Namespace (store (globals st)) (feature_service (globals st))
                        (client (globals st)) p)
             (trace st))
  | Raise e => (Raise e, st)
  end.

Definition feast_template_cell : M namespace unit := bind_prompt Feast.template.
Definition tecton_template_cell : M namespace unit := bind_prompt Tecton.template.
Definition featureform_template_cell : M namespace unit :=
  bind_prompt Featureform.template.

(** A method body run on the names it reads from the namespace; the methods
    assign no global, so the namespace is the one the call started from. *)
Definition within {G A} (view : namespace -> G) (m : M G A) : M namespace A :=
  fun st =>
    let (r, st') := m (State (view (globals st)) (trace st)) in
    (r, State (globals st) (trace st')).

Definition feast_names (ns : namespace) : Feast.globals :=
  Feast.Globals (store ns) (prompt ns).
Definition tecton_names (ns : namespace) : Tecton.globals :=
  Tecton.Globals (feature_service ns) (prompt ns).
Definition featureform_names (ns : namespace) : Featureform.globals :=
  Featureform.Globals (client ns) (prompt ns).

Definition feast_format (kwargs : gmap string value) : M namespace string :=
  within feast_names (Feast.format kwargs).
Definition tecton_format (kwargs : gmap string value) : M namespace string :=
  within tecton_names (Tecton.format kwargs).
Definition featureform_format (kwargs : gmap string value) : M namespace string :=
  within featureform_names (Featureform.format kwargs).

End Notebook.

Module Partial.

(** Store answers that miss part of what the method reads. *)
Definition feast : state Feast.globals :=
  State (Feast.Globals
           (fun _ _ => Ok {[ "conv_rate" := [VFloat "0.47"];
                             "acc_rate" := [] ]})
           (Stub.parsed Feast.template)) [].

Definition tecton : state Tecton.globals :=
  State (Tecton.Globals
           (fun _ => Ok {[ "user_transaction_counts.transaction_count_1d_1d" := VInt 657 ]})
           (Stub.parsed Tecton.template)) [].

Definition azureml : state AzureML.globals :=
  State (AzureML.Globals
           (fun _ => Ok {[ "accountAge" := [VFloat "563.0"];
                           "accountCountry" := [] ]})
           (Stub.parsed AzureML.template)) [].

Definition notebook : state Notebook.namespace :=
  State (Notebook.Namespace
           (fun _ _ => Ok (Feast.single_row Stub.driver_stats))
           (fun _ => Ok {[ "user_transaction_counts.transaction_count_1d_1d" := VInt 657;
                           "user_transaction_counts.transaction_count_30d_1d" := VInt 20326 ]})
           (fun _ _ => Ok [VFloat "25.0"])
           (Stub.parsed Feast.template)) [].

End Partial.

(** * Properties *)

(** ** Sanity checks of the model *)

Example from_template_simple :
  PromptTemplate.from_template "a{x}b{yz}" =
  Ok [PromptTemplate.Text "a"; PromptTemplate.Placeholder "x";
      PromptTemplate.Text "b"; PromptTemplate.Placeholder "yz"].
Proof. reflexivity. Qed.

Example from_template_unbalanced :
  PromptTemplate.from_template "a{x" = Raise PromptTemplate.unbalanced.
Proof. reflexivity. Qed.

Example format_simple :
  PromptTemplate.format [PromptTemplate.Text "n="; PromptTemplate.Placeholder "n"]
    {[ "n" := VInt 936 ]} = Ok "n=936".
Proof. vm_compute. reflexivity. Qed.

Example tecton_notebook_output :
  fst (Tecton.format {[ "user_id" := VStr "user_469998441571" ]} Stub.tecton) = Ok
"Given the vendor's up to date transaction stats, write them a note based on the following rules:

1. If they had a transaction in the last day, write a short congratulations message on their recent sales
2. If no transaction in the last day, but they had a transaction in the last 30 days, playfully encourage them to sell more.
3. Always add a silly joke about chickens at the end

Here are the vendor's stats:
Number of Transactions Last Day: 657
Number of Transactions Last 30 Days: 20326

Your response:".
Proof. vm_compute. reflexivity. Qed.

Example azureml_raise_str :
  fst (AzureML.format {[ "query" := VStr "hello" ]} Stub.azureml)
  = Raise (TypeError "exceptions must derive from BaseException").
Proof. vm_compute. reflexivity. Qed.

Example format_missing :
  PromptTemplate.format [PromptTemplate.Text "n="; PromptTemplate.Placeholder "n"]
    {[ "m" := VInt 936 ]} = Raise (KeyError (VStr "n")).
Proof. vm_compute. reflexivity. Qed.

(** ** The prompt template: missing keys and substitution *)

Section TemplateFacts.
Import PromptTemplate.
Variable mapping : gmap string value.

Lemma format_add_char c tpl :
  format (add_char c tpl) mapping =
  match format tpl mapping with
  | Ok out => Ok (String c out)
  | Raise e => Raise e
  end.
Proof.
  destruct tpl as [|[s|name] rest]; simpl.
  - reflexivity.
  - destruct (format rest mapping); reflexivity.
  - destruct (mapping !! name); [|reflexivity].
    destruct (format rest mapping); reflexivity.
Qed.

Lemma placeholders_add_char c tpl :
  placeholders (add_char c tpl) = placeholders tpl.
Proof. destruct tpl as [|[s|name] rest]; reflexivity. Qed.

Lemma format_covered tpl :
  placeholders tpl ⊆ dom mapping -> exists out, format tpl mapping = Ok out.
Proof.
  induction tpl as [|[s|name] rest IH]; simpl; intros Hsub.
  - eexists; reflexivity.
  - destruct IH as [out ->]; [done|]. eexists; reflexivity.
  - assert (Hin : name ∈ dom mapping) by set_solver.
    apply elem_of_dom in Hin as [v ->].
    destruct IH as [out ->]; [set_solver|]. eexists; reflexivity.
Qed.

(** Both scanning modes at once, by induction on the pattern: outside
    braces the output is a substitution instance of the pattern; inside
    braces the pattern splits into the rest of the name, the closing brace
    and a remainder of which the output is a substitution instance. *)
Lemma scan_substituted pat :
  (forall x tpl, scan pat false = Ok (x, tpl) ->
     placeholders tpl ⊆ dom mapping ->
     exists out, format tpl mapping = Ok out /\ substituted mapping pat out) /\
  (forall name tpl, scan pat true = Ok (name, tpl) ->
     exists rest, pat = name +:+ "}" +:+ rest /\ brace_free name /\
       (placeholders tpl ⊆ dom mapping ->
        exists out, format tpl mapping = Ok out /\ substituted mapping rest out)).
Proof.
  induction pat as [|c pat [IHtext IHname]]; split; simpl.
  - intros x tpl [= <- <-] _. exists EmptyString; split; [reflexivity|constructor].
  - intros name tpl [=].
  - intros x tpl.
    destruct (Ascii.eqb_spec c "{") as [->|Hopen].
    + destruct (scan pat true) as [[name tpl']|e] eqn:Es; intros [= <- <-] Hsub.
      destruct (IHname _ _ eq_refl) as (rest & -> & Hfree & Hrest).
      simpl in Hsub.
      assert (Hin : name ∈ dom mapping) by set_solver.
      apply elem_of_dom in Hin as [v Hv].
      destruct Hrest as (out & Hout & Hs); [set_solver|].
      exists (str v +:+ out). simpl. rewrite Hv, Hout. split; [reflexivity|].
      by apply (subst_field mapping name v rest out).
    + destruct (Ascii.eqb_spec c "}") as [->|Hclose]; [intros [=]|].
      destruct (scan pat false) as [[y tpl']|e] eqn:Es; intros [= <- <-] Hsub.
      rewrite placeholders_add_char in Hsub.
      destruct (IHtext _ _ eq_refl Hsub) as (out & Hout & Hs).
      exists (String c out). rewrite format_add_char, Hout.
      split; [reflexivity|]. by constructor.
  - intros name tpl.
    destruct (Ascii.eqb_spec c "}") as [->|Hclose].
    + destruct (scan pat false) as [[y tpl']|e] eqn:Es; intros [= <- <-].
      exists pat. split; [reflexivity|]. split; [exact I|].
      intros Hsub. exact (IHtext _ _ eq_refl Hsub).
    + destruct (Ascii.eqb_spec c "{") as [->|Hopen]; [intros [=]|].
      destruct (scan pat true) as [[n tpl']|e] eqn:Es; intros [= <- <-].
      destruct (IHname _ _ eq_refl) as (rest & -> & Hfree & Hrest).
      exists rest. split; [reflexivity|]. split; [simpl; tauto|exact Hrest].
Qed.
End TemplateFacts.

(** C2. For every template T with placeholder set P and every mapping M whose
    key set does not include all of P, [T.format(M)] fails with a missing-key
    error, naming a placeholder of P that M lacks, and produces no text at
    all, partially formatted or otherwise. *)
Theorem template_format_missing_key (tpl : PromptTemplate.t) (m : gmap string value) :
  ¬ (PromptTemplate.placeholders tpl ⊆ dom m) ->
  (exists name,
     PromptTemplate.format tpl m = Raise (KeyError (VStr name)) /\
     name ∈ PromptTemplate.placeholders tpl /\ m !! name = None) /\
  (forall out, PromptTemplate.format tpl m <> Ok out).
Proof.
  intros Hnot.
  assert (Hex : exists name,
    PromptTemplate.format tpl m = Raise (KeyError (VStr name)) /\
    name ∈ PromptTemplate.placeholders tpl /\ m !! name = None).
  { induction tpl as [|[s|name] rest IH]; simpl in *.
    - exfalso. apply Hnot. set_solver.
    - destruct (IH Hnot) as (n & Hn & Hin & Hnone). rewrite Hn. eauto.
    - destruct (m !! name) as [v|] eqn:Hv.
      + destruct IH as (n & Hn & Hin & Hnone).
        { intros Hsub. apply Hnot. intros x Hx.
          apply elem_of_union in Hx as [Hx|Hx]; [|by apply Hsub].
          apply elem_of_singleton in Hx as ->. apply elem_of_dom. eauto. }
        rewrite Hn. exists n. split; [reflexivity|]. split; [set_solver|done].
      + exists name. split; [reflexivity|]. split; [set_solver|done]. }
  split; [exact Hex|].
  destruct Hex as (n & Hn & _). rewrite Hn. intros out [=].
Qed.

Lemma template_format_missing_key_witness :
  (exists name,
     PromptTemplate.format
       [PromptTemplate.Text "a"; PromptTemplate.Placeholder "x";
        PromptTemplate.Placeholder "y"] {[ "x" := VInt 1 ]}
     = Raise (KeyError (VStr name)) /\
     name ∈ PromptTemplate.placeholders
       [PromptTemplate.Text "a"; PromptTemplate.Placeholder "x";
        PromptTemplate.Placeholder "y"] /\
     ({[ "x" := VInt 1 ]} : gmap string value) !! name = None) /\
  (forall out,
     PromptTemplate.format
       [PromptTemplate.Text "a"; PromptTemplate.Placeholder "x";
        PromptTemplate.Placeholder "y"] {[ "x" := VInt 1 ]} <> Ok out).
Proof.
  apply (template_format_missing_key
           [PromptTemplate.Text "a"; PromptTemplate.Placeholder "x";
            PromptTemplate.Placeholder "y"] {[ "x" := VInt 1 ]}).
  simpl. intros Hsub.
  assert (Hy : "y" ∈ dom ({[ "x" := VInt 1 ]} : gmap string value)) by set_solver.
  apply elem_of_dom in Hy as [v Hv]. vm_compute in Hv. discriminate.
Defined.

(** C3. For every template T with placeholder set P, obtained from a pattern,
    and every mapping M whose key set includes all of P, [T.format(M)]
    succeeds and returns the pattern text with every occurrence of each
    placeholder replaced by its mapped value and all other text verbatim. *)
Theorem template_format_substitutes (pat : string) (tpl : PromptTemplate.t)
    (m : gmap string value) :
  PromptTemplate.from_template pat = Ok tpl ->
  PromptTemplate.placeholders tpl ⊆ dom m ->
  exists out,
    PromptTemplate.format tpl m = Ok out /\ PromptTemplate.substituted m pat out.
Proof.
  unfold PromptTemplate.from_template. intros Hparse Hsub.
  destruct (PromptTemplate.scan pat false) as [[x tpl']|e] eqn:Es; [|discriminate].
  injection Hparse as ->.
  exact (proj1 (scan_substituted m pat) _ _ Es Hsub).
Qed.

Lemma template_format_substitutes_witness :
  exists out,
    PromptTemplate.format
      [PromptTemplate.Text "a"; PromptTemplate.Placeholder "x"; PromptTemplate.Text "b"]
      {[ "x" := VInt 1 ]} = Ok out /\
    PromptTemplate.substituted {[ "x" := VInt 1 ]} "a{x}b" out.
Proof.
  apply (template_format_substitutes "a{x}b"
           [PromptTemplate.Text "a"; PromptTemplate.Placeholder "x"; PromptTemplate.Text "b"]
           {[ "x" := VInt 1 ]}).
  - reflexivity.
  - simpl. set_solver.
Defined.

(** ** Running a method body *)

Lemma lookups_app tr tr' : lookups (tr ++ tr') = lookups tr ++ lookups tr'.
Proof. apply List.filter_app. Qed.

Lemma template_calls_app tr tr' :
  template_calls (tr ++ tr') = template_calls tr ++ template_calls tr'.
Proof. apply List.filter_app. Qed.

(** Unfold a method body down to the case analysis it performs on its
    dictionary lookups and on the answer of the store. *)
Ltac run :=
  cbv beta iota zeta delta
    [Feast.format Feast.get_online_features
     Tecton.format Tecton.get_online_features
     Featureform.format Featureform.features
     AzureML.format AzureML.get_online_features AzureML.cell0 AzureML.contains
     PromptTemplate.call
     mbind mret M_bind M_ret bind ret raise lift read emit pop getitem getitem0];
  cbn [fst snd globals trace negb].

(** Finish a goal about a fully unfolded method body by cases on every
    dictionary lookup and store answer it inspects. *)
Ltac all_cases := repeat (case_match; simplify_eq/=; try done).

Ltac by_cases :=
  all_cases;
  rewrite ?lookups_app, ?template_calls_app, ?app_nil_r; simpl;
  rewrite ?app_nil_r; try done.

(** Resolve the lookups of literal keys in a mapping built by insertions. *)
Ltac lookup_inserts :=
  repeat (rewrite lookup_insert_eq || rewrite lookup_insert_ne by done).

(** ** The entity identifier is required *)

(** C1. In every adapter, a call of [format] whose keyword mapping lacks the
    entity identifier key ([driver_id], [user_id], [account_id]) fails on the
    extraction of the identifier, before any lookup to the feature store: the
    state, hence the trace of lookups, is the one the call started from. The
    error is the [KeyError] of [kwargs.pop] for Feast, Tecton and Featureform,
    and the error of the guard [if "account_id" not in kwargs: raise ...] for
    AzureML. *)
Theorem format_without_entity_id :
  (forall kwargs st, kwargs !! "driver_id" = None ->
     Feast.format kwargs st = (Raise (KeyError (VStr "driver_id")), st)) /\
  (forall kwargs st, kwargs !! "user_id" = None ->
     Tecton.format kwargs st = (Raise (KeyError (VStr "user_id")), st)) /\
  (forall kwargs st, kwargs !! "user_id" = None ->
     Featureform.format kwargs st = (Raise (KeyError (VStr "user_id")), st)) /\
  (forall kwargs st, kwargs !! "account_id" = None ->
     AzureML.format kwargs st = (Raise AzureML.raise_str, st)).
Proof.
  split; [|split; [|split]]; intros kwargs st Hnone.
  - run. by rewrite Hnone.
  - run. by rewrite Hnone.
  - run. by rewrite Hnone.
  - run. by rewrite Hnone.
Qed.

Lemma format_without_entity_id_witness :
  Feast.format ∅ Stub.feast = (Raise (KeyError (VStr "driver_id")), Stub.feast) /\
  Tecton.format ∅ Stub.tecton = (Raise (KeyError (VStr "user_id")), Stub.tecton) /\
  Featureform.format {[ "query" := VStr "hello" ]} Stub.featureform
    = (Raise (KeyError (VStr "user_id")), Stub.featureform) /\
  AzureML.format {[ "query" := VStr "hello" ]} Stub.azureml
    = (Raise AzureML.raise_str, Stub.azureml).
Proof.
  destruct format_without_entity_id as (Hfeast & Htecton & Hff & Hazure).
  split; [|split; [|split]].
  - apply Hfeast. reflexivity.
  - apply Htecton. reflexivity.
  - apply Hff. reflexivity.
  - apply Hazure. reflexivity.
Defined.

(** ** Failure of the lookup *)

(** C4. When the adapter's [format] is called with the entity identifier
    present and the external lookup fails, [format] fails with the lookup's
    error and the wrapped template's [format] is never invoked: no call to it
    is added to the trace and no text is returned. *)
Theorem lookup_failure_skips_template :
  (forall kwargs st id e, kwargs !! "driver_id" = Some id ->
     Feast.store (globals st) Feast.features (Feast.entity_rows id) = Raise e ->
     fails_before_template (Feast.format kwargs) st e) /\
  (forall kwargs st id e, kwargs !! "user_id" = Some id ->
     Tecton.feature_service (globals st) (Tecton.join_keys id) = Raise e ->
     fails_before_template (Tecton.format kwargs) st e) /\
  (forall kwargs st id e, kwargs !! "user_id" = Some id ->
     Featureform.client (globals st) [("avg_transactions", "quickstart")]
       {[ "user" := id ]} = Raise e ->
     fails_before_template (Featureform.format kwargs) st e) /\
  (forall kwargs st id e, kwargs !! "account_id" = Some id ->
     AzureML.feature_set (globals st) (AzureML.obs id) = Raise e ->
     fails_before_template (AzureML.format kwargs) st e).
Proof.
  unfold fails_before_template.
  split; [|split; [|split]]; intros kwargs [g tr] id e Hid Hdown;
    cbn in Hdown; run; rewrite Hid; run;
    try (destruct (delete "account_id" kwargs !! "query"); run);
    rewrite Hdown; run; rewrite template_calls_app, app_nil_r; done.
Qed.

Lemma lookup_failure_skips_template_witness :
  fails_before_template (Feast.format {[ "driver_id" := VInt 1001 ]})
    Stub.feast_down Stub.unreachable /\
  fails_before_template (Tecton.format {[ "user_id" := VStr "user_469998441571" ]})
    Stub.tecton_down Stub.unreachable /\
  fails_before_template (Featureform.format {[ "user_id" := VStr "C1410926" ]})
    Stub.featureform_down Stub.unreachable /\
  fails_before_template (AzureML.format {[ "account_id" := VStr "A1829581630230790" ]})
    Stub.azureml_down Stub.unreachable.
Proof.
  destruct lookup_failure_skips_template as (Hfeast & Htecton & Hff & Hazure).
  split; [|split; [|split]].
  - apply (Hfeast _ _ (VInt 1001)); reflexivity.
  - apply (Htecton _ _ (VStr "user_469998441571")); reflexivity.
  - apply (Hff _ _ (VStr "C1410926")); reflexivity.
  - apply (Hazure _ _ (VStr "A1829581630230790")); reflexivity.
Defined.

(** C7. In every adapter, a call of [format] with the entity identifier
    present invokes the lookup exactly once, for that identifier, whatever
    the store answers; and an error raised by the lookup is the error of the
    call, unchanged: there is no second attempt. *)
Theorem lookup_once_and_propagated :
  (forall kwargs st id, kwargs !! "driver_id" = Some id ->
     looks_up_once (Feast.format kwargs) st id /\
     forall e,
       Feast.store (globals st) Feast.features (Feast.entity_rows id) = Raise e ->
       fst (Feast.format kwargs st) = Raise e) /\
  (forall kwargs st id, kwargs !! "user_id" = Some id ->
     looks_up_once (Tecton.format kwargs) st id /\
     forall e,
       Tecton.feature_service (globals st) (Tecton.join_keys id) = Raise e ->
       fst (Tecton.format kwargs st) = Raise e) /\
  (forall kwargs st id, kwargs !! "user_id" = Some id ->
     looks_up_once (Featureform.format kwargs) st id /\
     forall e,
       Featureform.client (globals st) [("avg_transactions", "quickstart")]
         {[ "user" := id ]} = Raise e ->
       fst (Featureform.format kwargs st) = Raise e) /\
  (forall kwargs st id, kwargs !! "account_id" = Some id ->
     looks_up_once (AzureML.format kwargs) st id /\
     forall e,
       AzureML.feature_set (globals st) (AzureML.obs id) = Raise e ->
       fst (AzureML.format kwargs st) = Raise e).
Proof.
  unfold looks_up_once.
  split; [|split; [|split]]; intros kwargs [g tr] id Hid; cbn [globals].
  - split.
    + run. rewrite Hid. run. by_cases.
    + intros e Hdown. run. rewrite Hid. run. by rewrite Hdown.
  - split.
    + run. rewrite Hid. run. by_cases.
    + intros e Hdown. run. rewrite Hid. run. by rewrite Hdown.
  - split.
    + run. rewrite Hid. run. by_cases.
    + intros e Hdown. run. rewrite Hid. run. by rewrite Hdown.
  - split.
    + run. rewrite Hid. run.
      destruct (delete "account_id" kwargs !! "query"); run; by_cases.
    + intros e Hdown. run. rewrite Hid. run.
      destruct (delete "account_id" kwargs !! "query"); run; by rewrite Hdown.
Qed.

Lemma lookup_once_and_propagated_witness :
  looks_up_once (Feast.format {[ "driver_id" := VInt 1001 ]}) Stub.feast (VInt 1001) /\
  looks_up_once (Tecton.format {[ "user_id" := VStr "user_469998441571" ]})
    Stub.tecton_down (VStr "user_469998441571") /\
  fst (Tecton.format {[ "user_id" := VStr "user_469998441571" ]} Stub.tecton_down)
    = Raise Stub.unreachable /\
  looks_up_once (Featureform.format {[ "user_id" := VStr "C1410926" ]})
    Stub.featureform (VStr "C1410926") /\
  looks_up_once (AzureML.format {[ "account_id" := VStr "A1829581630230790" ]})
    Stub.azureml (VStr "A1829581630230790").
Proof.
  destruct lookup_once_and_propagated as (Hfeast & Htecton & Hff & Hazure).
  split; [|split; [|split; [|split]]].
  - apply (Hfeast _ Stub.feast (VInt 1001)). reflexivity.
  - apply (Htecton _ Stub.tecton_down (VStr "user_469998441571")). reflexivity.
  - apply (Htecton _ Stub.tecton_down (VStr "user_469998441571")); reflexivity.
  - apply (Hff _ Stub.featureform (VStr "C1410926")). reflexivity.
  - apply (Hazure _ Stub.azureml (VStr "A1829581630230790")). reflexivity.
Defined.

(** ** Feast: what the template is formatted with *)

Lemma feast_prompt_parsed :
  Feast.prompt_cell =
  Ok [PromptTemplate.Text
"Given the driver's up to date stats, write them note relaying those stats to them.
If they have a conversation rate above .5, give them a compliment. Otherwise, make a silly joke about chickens at the end to make them feel better

Here are the drivers stats:
Conversation rate: ";
      PromptTemplate.Placeholder "conv_rate";
      PromptTemplate.Text "
Acceptance rate: ";
      PromptTemplate.Placeholder "acc_rate";
      PromptTemplate.Text "
Average Daily Trips: ";
      PromptTemplate.Placeholder "avg_daily_trips";
      PromptTemplate.Text "

Your response:"].
Proof. vm_compute. reflexivity. Qed.

(** The mapping handed to the template: the caller's keywords without the
    identifier, overwritten by the three looked-up statistics. *)
Lemma feast_merge_agree (m m' : gmap string value) a b c :
  (forall k, k <> "conv_rate" -> k <> "acc_rate" -> k <> "avg_daily_trips" ->
     m' !! k = m !! k) ->
  <["avg_daily_trips" := c]> (<["acc_rate" := b]> (<["conv_rate" := a]>
    (delete "driver_id" m'))) =
  <["avg_daily_trips" := c]> (<["acc_rate" := b]> (<["conv_rate" := a]>
    (delete "driver_id" m))).
Proof.
  intros Hagree. apply map_eq. intros k.
  destruct (decide (k = "avg_daily_trips")) as [->|Havg].
  { by rewrite !lookup_insert_eq. }
  rewrite !(lookup_insert_ne _ "avg_daily_trips") by done.
  destruct (decide (k = "acc_rate")) as [->|Hacc].
  { by rewrite !lookup_insert_eq. }
  rewrite !(lookup_insert_ne _ "acc_rate") by done.
  destruct (decide (k = "conv_rate")) as [->|Hconv].
  { by rewrite !lookup_insert_eq. }
  rewrite !(lookup_insert_ne _ "conv_rate") by done.
  destruct (decide (k = "driver_id")) as [->|Hid].
  { by rewrite !lookup_delete_eq. }
  rewrite !lookup_delete_ne by done. by apply Hagree.
Qed.

Lemma feast_format_rendered kwargs st id fv a b c la lb lc :
  Feast.prompt_cell = Ok (Feast.prompt (globals st)) ->
  kwargs !! "driver_id" = Some id ->
  Feast.store (globals st) Feast.features (Feast.entity_rows id) = Ok fv ->
  fv !! "conv_rate" = Some (a :: la) ->
  fv !! "acc_rate" = Some (b :: lb) ->
  fv !! "avg_daily_trips" = Some (c :: lc) ->
  fst (Feast.format kwargs st) = Ok (Feast.rendered a b c).
Proof.
  destruct st as [g tr]. cbn [globals].
  rewrite feast_prompt_parsed. intros [= Hp] Hid Hstore Ha Hb Hc.
  run. rewrite Hid. run. rewrite Hstore. run.
  rewrite Ha, Hb, Hc. run.
  rewrite <- Hp. cbn [PromptTemplate.format].
  rewrite (lookup_insert_ne _ "avg_daily_trips" "conv_rate") by done.
  rewrite (lookup_insert_ne _ "acc_rate" "conv_rate") by done.
  rewrite lookup_insert_eq.
  rewrite (lookup_insert_ne _ "avg_daily_trips" "acc_rate") by done.
  rewrite !lookup_insert_eq.
  reflexivity.
Qed.

(** C5. For the call [format(driver_id=1001)] against a store whose answer
    for that driver carries the record
    [{conv_rate: 0.47, acc_rate: 0.06, avg_daily_trips: 936}], the output is
    the template's pattern with "0.47", "0.06" and "936" in the positions of
    the placeholders [{conv_rate}], [{acc_rate}] and [{avg_daily_trips}]. *)
Theorem feast_format_driver_1001 (st : state Feast.globals) :
  Feast.prompt_cell = Ok (Feast.prompt (globals st)) ->
  Feast.store (globals st) Feast.features (Feast.entity_rows (VInt 1001)) =
    Ok (Feast.single_row {[ "conv_rate" := VFloat "0.47";
                            "acc_rate" := VFloat "0.06";
                            "avg_daily_trips" := VInt 936 ]}) ->
  fst (Feast.format {[ "driver_id" := VInt 1001 ]} st) = Ok
"Given the driver's up to date stats, write them note relaying those stats to them.
If they have a conversation rate above .5, give them a compliment. Otherwise, make a silly joke about chickens at the end to make them feel better

Here are the drivers stats:
Conversation rate: 0.47
Acceptance rate: 0.06
Average Daily Trips: 936

Your response:".
Proof.
  intros Hprompt Hstore.
  apply (feast_format_rendered {[ "driver_id" := VInt 1001 ]} st (VInt 1001)
           (Feast.single_row {[ "conv_rate" := VFloat "0.47";
                                "acc_rate" := VFloat "0.06";
                                "avg_daily_trips" := VInt 936 ]})
           (VFloat "0.47") (VFloat "0.06") (VInt 936) [] [] [] Hprompt);
    [reflexivity | exact Hstore | reflexivity | reflexivity | reflexivity].
Qed.

Lemma feast_format_driver_1001_witness :
  fst (Feast.format {[ "driver_id" := VInt 1001 ]} Stub.feast) = Ok
"Given the driver's up to date stats, write them note relaying those stats to them.
If they have a conversation rate above .5, give them a compliment. Otherwise, make a silly joke about chickens at the end to make them feel better

Here are the drivers stats:
Conversation rate: 0.47
Acceptance rate: 0.06
Average Daily Trips: 936

Your response:".
Proof.
  apply (feast_format_driver_1001 Stub.feast).
  - vm_compute. reflexivity.
  - reflexivity.
Defined.

(** C6. In the Feast adapter the looked-up statistics overwrite whatever the
    caller supplied under [conv_rate], [acc_rate] or [avg_daily_trips]: the
    output text carries the looked-up values for these three placeholders,
    and two calls whose keyword mappings differ only on these three keys
    behave alike. *)
Theorem feast_lookup_overrides_caller kwargs st id fv a b c la lb lc :
  Feast.prompt_cell = Ok (Feast.prompt (globals st)) ->
  kwargs !! "driver_id" = Some id ->
  Feast.store (globals st) Feast.features (Feast.entity_rows id) = Ok fv ->
  fv !! "conv_rate" = Some (a :: la) ->
  fv !! "acc_rate" = Some (b :: lb) ->
  fv !! "avg_daily_trips" = Some (c :: lc) ->
  fst (Feast.format kwargs st) = Ok (Feast.rendered a b c) /\
  forall kwargs',
    (forall k, k <> "conv_rate" -> k <> "acc_rate" -> k <> "avg_daily_trips" ->
       kwargs' !! k = kwargs !! k) ->
    Feast.format kwargs' st = Feast.format kwargs st.
Proof.
  intros Hprompt Hid Hstore Ha Hb Hc. split.
  { by eapply feast_format_rendered. }
  intros kwargs' Hagree. destruct st as [g tr]. cbn [globals] in Hstore.
  run. rewrite (Hagree "driver_id") by done. rewrite Hid. run.
  rewrite Hstore. run. rewrite Ha, Hb, Hc. run.
  by rewrite (feast_merge_agree kwargs kwargs' a b c Hagree).
Qed.

Lemma feast_lookup_overrides_caller_witness :
  fst (Feast.format {[ "driver_id" := VInt 1001; "conv_rate" := VFloat "0.99" ]}
         Stub.feast)
    = Ok (Feast.rendered (VFloat "0.47") (VFloat "0.06") (VInt 936)) /\
  forall kwargs',
    (forall k, k <> "conv_rate" -> k <> "acc_rate" -> k <> "avg_daily_trips" ->
       kwargs' !! k =
       ({[ "driver_id" := VInt 1001; "conv_rate" := VFloat "0.99" ]}
          : gmap string value) !! k) ->
    Feast.format kwargs' Stub.feast =
    Feast.format {[ "driver_id" := VInt 1001; "conv_rate" := VFloat "0.99" ]}
      Stub.feast.
Proof.
  apply (feast_lookup_overrides_caller
           {[ "driver_id" := VInt 1001; "conv_rate" := VFloat "0.99" ]}
           Stub.feast (VInt 1001) (Feast.single_row Stub.driver_stats)
           (VFloat "0.47") (VFloat "0.06") (VInt 936) [] [] []).
  - vm_compute. reflexivity.
  - reflexivity.
  - reflexivity.
  - reflexivity.
  - reflexivity.
  - reflexivity.
Defined.

(** ** No state between calls *)

Lemma feast_format_depends kwargs st st' :
  Feast.prompt (globals st') = Feast.prompt (globals st) ->
  (forall id, kwargs !! "driver_id" = Some id ->
     Feast.store (globals st') Feast.features (Feast.entity_rows id) =
     Feast.store (globals st) Feast.features (Feast.entity_rows id)) ->
  fst (Feast.format kwargs st') = fst (Feast.format kwargs st).
Proof.
  destruct st as [g tr], st' as [g' tr']. cbn [globals]. intros Hprompt Hstore.
  run. destruct (kwargs !! "driver_id") as [id|]; run; [|done].
  rewrite (Hstore id eq_refl). all_cases. by rewrite Hprompt.
Qed.

Lemma tecton_format_depends kwargs st st' :
  Tecton.prompt (globals st') = Tecton.prompt (globals st) ->
  (forall id, kwargs !! "user_id" = Some id ->
     Tecton.feature_service (globals st') (Tecton.join_keys id) =
     Tecton.feature_service (globals st) (Tecton.join_keys id)) ->
  fst (Tecton.format kwargs st') = fst (Tecton.format kwargs st).
Proof.
  destruct st as [g tr], st' as [g' tr']. cbn [globals]. intros Hprompt Hstore.
  run. destruct (kwargs !! "user_id") as [id|]; run; [|done].
  rewrite (Hstore id eq_refl). all_cases. by rewrite Hprompt.
Qed.

Lemma featureform_format_depends kwargs st st' :
  Featureform.prompt (globals st') = Featureform.prompt (globals st) ->
  (forall id, kwargs !! "user_id" = Some id ->
     Featureform.client (globals st') [("avg_transactions", "quickstart")]
       {[ "user" := id ]} =
     Featureform.client (globals st) [("avg_transactions", "quickstart")]
       {[ "user" := id ]}) ->
  fst (Featureform.format kwargs st') = fst (Featureform.format kwargs st).
Proof.
  destruct st as [g tr], st' as [g' tr']. cbn [globals]. intros Hprompt Hstore.
  run. destruct (kwargs !! "user_id") as [id|]; run; [|done].
  rewrite (Hstore id eq_refl). all_cases. by rewrite Hprompt.
Qed.

Lemma azureml_format_depends kwargs st st' :
  AzureML.prompt (globals st') = AzureML.prompt (globals st) ->
  (forall id, kwargs !! "account_id" = Some id ->
     AzureML.feature_set (globals st') (AzureML.obs id) =
     AzureML.feature_set (globals st) (AzureML.obs id)) ->
  fst (AzureML.format kwargs st') = fst (AzureML.format kwargs st).
Proof.
  destruct st as [g tr], st' as [g' tr']. cbn [globals]. intros Hprompt Hstore.
  run. destruct (kwargs !! "account_id") as [id|]; run; [|done].
  destruct (delete "account_id" kwargs !! "query"); run;
    rewrite (Hstore id eq_refl); all_cases; by rewrite Hprompt.
Qed.

Lemma feast_globals_kept kwargs st :
  globals (snd (Feast.format kwargs st)) = globals st.
Proof. destruct st as [g tr]. run. by_cases. Qed.

Lemma tecton_globals_kept kwargs st :
  globals (snd (Tecton.format kwargs st)) = globals st.
Proof. destruct st as [g tr]. run. by_cases. Qed.

Lemma featureform_globals_kept kwargs st :
  globals (snd (Featureform.format kwargs st)) = globals st.
Proof. destruct st as [g tr]. run. by_cases. Qed.

Lemma azureml_globals_kept kwargs st :
  globals (snd (AzureML.format kwargs st)) = globals st.
Proof. destruct st as [g tr]. run. by_cases. Qed.

(** C8. An adapter holds no mutable state between calls. A call of [format]
    leaves the configuration it reads (the pattern and the lookup handle; the
    rename table is part of the method body) as it found it, and a second
    call with equal keyword arguments returns what the first returned. More
    generally the result is the same from any two states that hold the same
    pattern and whose stores answer alike for the identifier asked for. *)
Theorem format_holds_no_state :
  (forall kwargs st,
     repeatable (Feast.format kwargs) st /\
     forall st',
       Feast.prompt (globals st') = Feast.prompt (globals st) ->
       (forall id, kwargs !! "driver_id" = Some id ->
          Feast.store (globals st') Feast.features (Feast.entity_rows id) =
          Feast.store (globals st) Feast.features (Feast.entity_rows id)) ->
       fst (Feast.format kwargs st') = fst (Feast.format kwargs st)) /\
  (forall kwargs st,
     repeatable (Tecton.format kwargs) st /\
     forall st',
       Tecton.prompt (globals st') = Tecton.prompt (globals st) ->
       (forall id, kwargs !! "user_id" = Some id ->
          Tecton.feature_service (globals st') (Tecton.join_keys id) =
          Tecton.feature_service (globals st) (Tecton.join_keys id)) ->
       fst (Tecton.format kwargs st') = fst (Tecton.format kwargs st)) /\
  (forall kwargs st,
     repeatable (Featureform.format kwargs) st /\
     forall st',
       Featureform.prompt (globals st') = Featureform.prompt (globals st) ->
       (forall id, kwargs !! "user_id" = Some id ->
          Featureform.client (globals st') [("avg_transactions", "quickstart")]
            {[ "user" := id ]} =
          Featureform.client (globals st) [("avg_transactions", "quickstart")]
            {[ "user" := id ]}) ->
       fst (Featureform.format kwargs st') = fst (Featureform.format kwargs st)) /\
  (forall kwargs st,
     repeatable (AzureML.format kwargs) st /\
     forall st',
       AzureML.prompt (globals st') = AzureML.prompt (globals st) ->
       (forall id, kwargs !! "account_id" = Some id ->
          AzureML.feature_set (globals st') (AzureML.obs id) =
          AzureML.feature_set (globals st) (AzureML.obs id)) ->
       fst (AzureML.format kwargs st') = fst (AzureML.format kwargs st)).
Proof.
  unfold repeatable. split; [|split; [|split]]; intros kwargs st.
  - split; [split|].
    + apply feast_globals_kept.
    + apply feast_format_depends; by rewrite feast_globals_kept.
    + intros st'. apply feast_format_depends.
  - split; [split|].
    + apply tecton_globals_kept.
    + apply tecton_format_depends; by rewrite tecton_globals_kept.
    + intros st'. apply tecton_format_depends.
  - split; [split|].
    + apply featureform_globals_kept.
    + apply featureform_format_depends; by rewrite featureform_globals_kept.
    + intros st'. apply featureform_format_depends.
  - split; [split|].
    + apply azureml_globals_kept.
    + apply azureml_format_depends; by rewrite azureml_globals_kept.
    + intros st'. apply azureml_format_depends.
Qed.

Lemma format_holds_no_state_witness :
  repeatable (Feast.format {[ "driver_id" := VInt 1001 ]}) Stub.feast /\
  fst (Feast.format {[ "driver_id" := VInt 1001 ]}
         (State (globals Stub.feast) [Lookup (VInt 7)])) =
  fst (Feast.format {[ "driver_id" := VInt 1001 ]} Stub.feast).
Proof.
  destruct format_holds_no_state as (Hfeast & _).
  destruct (Hfeast {[ "driver_id" := VInt 1001 ]} Stub.feast) as (Hrep & Hdep).
  split; [exact Hrep|].
  apply Hdep.
  - reflexivity.
  - intros id _. reflexivity.
Defined.

(** ** Featureform: the looked-up value is never merged *)

Lemma featureform_prompt_parsed :
  Featureform.prompt_cell =
  Ok [PromptTemplate.Text
"Given the amount a user spends on average per transaction, let them know if they are a high roller. Otherwise, make a silly joke about chickens at the end to make them feel better

Here are the user's stats:
Average Amount per Transaction: $";
      PromptTemplate.Placeholder "avg_transcation";
      PromptTemplate.Text "

Your response:"].
Proof. vm_compute. reflexivity. Qed.

(** C9, as stated, fails: a caller that passes [avg_transcation] itself gets
    the formatted text back, since the wrapped template is formatted with the
    caller's keywords. *)
Lemma featureform_format_caller_supplied :
  fst (Featureform.format
         {[ "user_id" := VStr "C1410926"; "avg_transcation" := VFloat "25.0" ]}
         Stub.featureform) = Ok
"Given the amount a user spends on average per transaction, let them know if they are a high roller. Otherwise, make a silly joke about chickens at the end to make them feel better

Here are the user's stats:
Average Amount per Transaction: $25.0

Your response:" /\
  ~ exists key,
      fst (Featureform.format
             {[ "user_id" := VStr "C1410926"; "avg_transcation" := VFloat "25.0" ]}
             Stub.featureform) = Raise (KeyError key).
Proof.
  assert (Hrun : fst (Featureform.format
         {[ "user_id" := VStr "C1410926"; "avg_transcation" := VFloat "25.0" ]}
         Stub.featureform) = Ok
"Given the amount a user spends on average per transaction, let them know if they are a high roller. Otherwise, make a silly joke about chickens at the end to make them feel better

Here are the user's stats:
Average Amount per Transaction: $25.0

Your response:") by (vm_compute; reflexivity).
  split; [exact Hrun|]. rewrite Hrun. intros [key [=]].
Qed.

(** C9, amended. For every input whose keyword mapping does not itself carry
    [avg_transcation], [FeatureformPromptTemplate.format] fails. Without
    [user_id] it fails with the missing-key error of [pop], before any lookup.
    With [user_id] it performs the lookup; if the lookup fails its error is the
    error of the call; otherwise the looked-up value is dropped, the wrapped
    template is formatted with the caller's remaining keywords, and the call
    fails with the missing-key error for [avg_transcation]. *)
Theorem featureform_format_fails kwargs st :
  Featureform.prompt_cell = Ok (Featureform.prompt (globals st)) ->
  kwargs !! "avg_transcation" = None ->
  (kwargs !! "user_id" = None ->
     Featureform.format kwargs st = (Raise (KeyError (VStr "user_id")), st)) /\
  (forall id, kwargs !! "user_id" = Some id ->
     (forall e,
        Featureform.client (globals st) [("avg_transactions", "quickstart")]
          {[ "user" := id ]} = Raise e ->
        Featureform.format kwargs st =
          (Raise e, State (globals st) (trace st ++ [Lookup id]))) /\
     (forall fpf,
        Featureform.client (globals st) [("avg_transactions", "quickstart")]
          {[ "user" := id ]} = Ok fpf ->
        Featureform.format kwargs st =
          (Raise (KeyError (VStr "avg_transcation")),
           State (globals st)
             (trace st ++ [Lookup id; TemplateFormat (delete "user_id" kwargs)])))).
Proof.
  destruct st as [g tr]. cbn [globals trace].
  rewrite featureform_prompt_parsed. intros [= Hp] Hnone.
  split; [|intros id Hid; split].
  - intros Hid. run. by rewrite Hid.
  - intros e Hdown. run. rewrite Hid. run. by rewrite Hdown.
  - intros fpf Hup. run. rewrite Hid. run. rewrite Hup. run.
    rewrite <- Hp. cbn [PromptTemplate.format].
    rewrite lookup_delete_ne by done. rewrite Hnone.
    by rewrite <- app_assoc.
Qed.

Lemma featureform_format_fails_witness :
  Featureform.format {[ "user_id" := VStr "C1410926" ]} Stub.featureform =
    (Raise (KeyError (VStr "avg_transcation")),
     State (globals Stub.featureform)
       [Lookup (VStr "C1410926");
        TemplateFormat (delete "user_id" {[ "user_id" := VStr "C1410926" ]})]).
Proof.
  assert (Hprompt : Featureform.prompt_cell =
                    Ok (Featureform.prompt (globals Stub.featureform)))
    by (vm_compute; reflexivity).
  assert (Hnone : ({[ "user_id" := VStr "C1410926" ]} : gmap string value)
                    !! "avg_transcation" = None) by reflexivity.
  destruct (featureform_format_fails {[ "user_id" := VStr "C1410926" ]}
              Stub.featureform Hprompt Hnone) as (_ & Hpresent).
  destruct (Hpresent (VStr "C1410926") eq_refl) as (_ & Hup).
  exact (Hup [VFloat "25.0"] eq_refl).
Defined.

(** ** AzureML: the optional query *)

Lemma azureml_prompt_parsed :
  AzureML.prompt_cell =
  Ok [PromptTemplate.Text "
            ";
      PromptTemplate.Placeholder "query";
      PromptTemplate.Text "
            ###
            account id = ";
      PromptTemplate.Placeholder "account_id";
      PromptTemplate.Text "
            account age = ";
      PromptTemplate.Placeholder "account_age";
      PromptTemplate.Text "
            account country = ";
      PromptTemplate.Placeholder "account_country";
      PromptTemplate.Text "
            payment rejects 1d per user = ";
      PromptTemplate.Placeholder "payment_rejects_1d_per_user";
      PromptTemplate.Text "
            ###
            "].
Proof. vm_compute. reflexivity. Qed.

(** C10. For [AzureMLFeatureStorePromptTemplate.format] the query is optional.
    With [account_id] present and the three features found, the call succeeds
    whether or not [query] is among the keyword arguments: if absent, the
    [{query}] placeholder is filled with the empty string; if present, with
    the caller's value as [str.format] prints it, which for a string is the
    string itself. *)
Theorem azureml_query_optional kwargs st id df age country rejects
    lage lcountry lrejects :
  AzureML.prompt_cell = Ok (AzureML.prompt (globals st)) ->
  kwargs !! "account_id" = Some id ->
  AzureML.feature_set (globals st) (AzureML.obs id) = Ok df ->
  df !! "accountAge" = Some (age :: lage) ->
  df !! "accountCountry" = Some (country :: lcountry) ->
  df !! "numPaymentRejects1dPerUser" = Some (rejects :: lrejects) ->
  (kwargs !! "query" = None ->
     fst (AzureML.format kwargs st) =
       Ok (AzureML.rendered (VStr EmptyString) id age country rejects)) /\
  (forall q, kwargs !! "query" = Some q ->
     fst (AzureML.format kwargs st) =
       Ok (AzureML.rendered q id age country rejects)).
Proof.
  destruct st as [g tr]. cbn [globals].
  rewrite azureml_prompt_parsed. intros [= Hp] Hid Hdf Hage Hcountry Hrejects.
  split; [intros Hq|intros q Hq].
  - run. rewrite Hid. run. rewrite lookup_delete_ne by done. rewrite Hq. run.
    rewrite Hdf. run. rewrite Hage, Hcountry, Hrejects. run.
    rewrite <- Hp. cbn [PromptTemplate.format]. lookup_inserts. reflexivity.
  - run. rewrite Hid. run. rewrite lookup_delete_ne by done. rewrite Hq. run.
    rewrite Hdf. run. rewrite Hage, Hcountry, Hrejects. run.
    rewrite <- Hp. cbn [PromptTemplate.format]. lookup_inserts. reflexivity.
Qed.

Lemma azureml_query_optional_witness :
  fst (AzureML.format {[ "account_id" := VStr "A1829581630230790" ]} Stub.azureml) = Ok
"
            
            ###
            account id = A1829581630230790
            account age = 563.0
            account country = GB
            payment rejects 1d per user = 15.0
            ###
            " /\
  fst (AzureML.format
         {[ "account_id" := VStr "A1829581630230790";
            "query" := VStr "write a small thank you note" ]} Stub.azureml) = Ok
"
            write a small thank you note
            ###
            account id = A1829581630230790
            account age = 563.0
            account country = GB
            payment rejects 1d per user = 15.0
            ###
            ".
Proof.
  assert (Hprompt : AzureML.prompt_cell = Ok (AzureML.prompt (globals Stub.azureml)))
    by (vm_compute; reflexivity).
  split.
  - refine (proj1 (azureml_query_optional
             {[ "account_id" := VStr "A1829581630230790" ]} Stub.azureml
             (VStr "A1829581630230790")
             {[ "accountAge" := [VFloat "563.0"];
                "accountCountry" := [VStr "GB"];
                "numPaymentRejects1dPerUser" := [VFloat "15.0"] ]}
             (VFloat "563.0") (VStr "GB") (VFloat "15.0") [] [] []
             Hprompt _ _ _ _ _) _); reflexivity.
  - refine (proj2 (azureml_query_optional
             {[ "account_id" := VStr "A1829581630230790";
                "query" := VStr "write a small thank you note" ]} Stub.azureml
             (VStr "A1829581630230790")
             {[ "accountAge" := [VFloat "563.0"];
                "accountCountry" := [VStr "GB"];
                "numPaymentRejects1dPerUser" := [VFloat "15.0"] ]}
             (VFloat "563.0") (VStr "GB") (VFloat "15.0") [] [] []
             Hprompt _ _ _ _ _) (VStr "write a small thank you note") _);
      reflexivity.
Defined.

(** * Further properties of the four adapters *)

(** ** What a call appends to the trace, and what it hands to the template *)

(** Close a goal that asks for the events appended in one branch of a
    method body. *)
Ltac shape :=
  first
    [ exists []; split; [by rewrite app_nil_r|]; left; split; [done|]; by eexists
    | eexists [_]; split; [done|]; right; eexists; split; [done|];
      left; split; [done|]; by eexists
    | eexists [_; _]; split; [by rewrite <- app_assoc|]; right;
      eexists; split; [done|]; right; by repeat eexists ].

Lemma feast_run_shape kwargs st :
  exists evs, added (Feast.format kwargs) st evs /\
    ((evs = [] /\ exists e, fst (Feast.format kwargs st) = Raise e) \/
     exists id, kwargs !! "driver_id" = Some id /\
       ((evs = [Lookup id] /\ exists e, fst (Feast.format kwargs st) = Raise e) \/
        exists a b c,
          evs = [Lookup id;
                 TemplateFormat
                   (<["avg_daily_trips" := c]> (<["acc_rate" := b]>
                      (<["conv_rate" := a]> (delete "driver_id" kwargs))))] /\
          fst (Feast.format kwargs st) =
            PromptTemplate.format (Feast.prompt (globals st))
              (<["avg_daily_trips" := c]> (<["acc_rate" := b]>
                 (<["conv_rate" := a]> (delete "driver_id" kwargs)))))).
Proof.
  destruct st as [g tr]. unfold added. run.
  destruct (kwargs !! "driver_id") as [id|]; run; [|shape].
  all_cases; shape.
Qed.

Lemma tecton_run_shape kwargs st :
  exists evs, added (Tecton.format kwargs) st evs /\
    ((evs = [] /\ exists e, fst (Tecton.format kwargs st) = Raise e) \/
     exists id, kwargs !! "user_id" = Some id /\
       ((evs = [Lookup id] /\ exists e, fst (Tecton.format kwargs st) = Raise e) \/
        exists a b,
          evs = [Lookup id;
                 TemplateFormat
                   (<["transaction_count_30d" := b]>
                      (<["transaction_count_1d" := a]> (delete "user_id" kwargs)))] /\
          fst (Tecton.format kwargs st) =
            PromptTemplate.format (Tecton.prompt (globals st))
              (<["transaction_count_30d" := b]>
                 (<["transaction_count_1d" := a]> (delete "user_id" kwargs))))).
Proof.
  destruct st as [g tr]. unfold added. run.
  destruct (kwargs !! "user_id") as [id|]; run; [|shape].
  all_cases; shape.
Qed.

Lemma featureform_run_shape kwargs st :
  exists evs, added (Featureform.format kwargs) st evs /\
    ((evs = [] /\ exists e, fst (Featureform.format kwargs st) = Raise e) \/
     exists id, kwargs !! "user_id" = Some id /\
       ((evs = [Lookup id] /\
         exists e, fst (Featureform.format kwargs st) = Raise e) \/
        (evs = [Lookup id; TemplateFormat (delete "user_id" kwargs)] /\
         fst (Featureform.format kwargs st) =
           PromptTemplate.format (Featureform.prompt (globals st))
             (delete "user_id" kwargs)))).
Proof.
  destruct st as [g tr]. unfold added. run.
  destruct (kwargs !! "user_id") as [id|]; run; [|shape].
  all_cases; shape.
Qed.

(** For AzureML the query formatted with is the caller's, or the empty
    string. *)
Lemma azureml_run_shape kwargs st :
  exists evs, added (AzureML.format kwargs) st evs /\
    ((evs = [] /\ exists e, fst (AzureML.format kwargs st) = Raise e) \/
     exists id, kwargs !! "account_id" = Some id /\
       ((evs = [Lookup id] /\ exists e, fst (AzureML.format kwargs st) = Raise e) \/
        exists a c r,
          evs = [Lookup id;
                 TemplateFormat
                   (<["payment_rejects_1d_per_user" := r]>
                      (<["account_country" := c]> (<["account_age" := a]>
                         (<["account_id" := id]>
                            (<["query" := default (VStr EmptyString) (kwargs !! "query")]>
                               (delete "account_id" kwargs))))))] /\
          fst (AzureML.format kwargs st) =
            PromptTemplate.format (AzureML.prompt (globals st))
              (<["payment_rejects_1d_per_user" := r]>
                 (<["account_country" := c]> (<["account_age" := a]>
                    (<["account_id" := id]>
                       (<["query" := default (VStr EmptyString) (kwargs !! "query")]>
                          (delete "account_id" kwargs)))))))).
Proof.
  destruct st as [g tr]. unfold added. run.
  destruct (kwargs !! "account_id") as [id|]; run; [|shape].
  rewrite lookup_delete_ne by done.
  destruct (kwargs !! "query") as [q|]; run.
  - rewrite insert_delete_eq. cbn [default]. all_cases; shape.
  - cbn [default]. all_cases; shape.
Qed.

Lemma added_unique {G} (m : M G string) (st : state G) evs evs' :
  added m st evs -> added m st evs' -> evs = evs'.
Proof.
  unfold added. intros H H'. rewrite H in H'. by apply app_inv_head in H'.
Qed.

(** Read the mapping of a template call off a trace of the known shape. *)
Ltac handed Hin :=
  repeat match goal with
  | H : _ /\ _ |- _ => destruct H
  | H : exists _, _ |- _ => destruct H
  | H : _ \/ _ |- _ => destruct H
  end; subst; cbn [In] in Hin;
  repeat match goal with
  | H : _ \/ _ |- _ => destruct H
  | H : False |- _ => destruct H
  | H : Lookup _ = TemplateFormat _ |- _ => discriminate H
  | H : TemplateFormat _ = TemplateFormat _ |- _ => injection H as <-
  end.

(** X1. The Feast, Tecton and Featureform methods take the entity identifier
    out of the keyword mapping with [pop] and never put it back: whatever
    mapping they hand to the wrapped template has no entry for it. The AzureML
    method assigns [kwargs["account_id"] = account_id] again, so its template
    receives the identifier the caller passed. *)
Theorem identifier_handed_on_only_by_azureml :
  (forall kwargs st evs m,
     added (Feast.format kwargs) st evs -> In (TemplateFormat m) evs ->
     m !! "driver_id" = None) /\
  (forall kwargs st evs m,
     added (Tecton.format kwargs) st evs -> In (TemplateFormat m) evs ->
     m !! "user_id" = None) /\
  (forall kwargs st evs m,
     added (Featureform.format kwargs) st evs -> In (TemplateFormat m) evs ->
     m !! "user_id" = None) /\
  (forall kwargs st evs m,
     added (AzureML.format kwargs) st evs -> In (TemplateFormat m) evs ->
     is_Some (m !! "account_id") /\ m !! "account_id" = kwargs !! "account_id").
Proof.
  split; [|split; [|split]]; intros kwargs st evs m Hadd Hin.
  - destruct (feast_run_shape kwargs st) as (evs' & Hadd' & Hshape).
    rewrite (added_unique _ _ _ _ Hadd Hadd') in Hin. handed Hin.
    lookup_inserts. apply lookup_delete_eq.
  - destruct (tecton_run_shape kwargs st) as (evs' & Hadd' & Hshape).
    rewrite (added_unique _ _ _ _ Hadd Hadd') in Hin. handed Hin.
    lookup_inserts. apply lookup_delete_eq.
  - destruct (featureform_run_shape kwargs st) as (evs' & Hadd' & Hshape).
    rewrite (added_unique _ _ _ _ Hadd Hadd') in Hin. handed Hin.
    apply lookup_delete_eq.
  - destruct (azureml_run_shape kwargs st) as (evs' & Hadd' & Hshape).
    rewrite (added_unique _ _ _ _ Hadd Hadd') in Hin. handed Hin.
    lookup_inserts. split; [by eexists|congruence].
Qed.

Lemma identifier_handed_on_only_by_azureml_witness :
  (<["avg_daily_trips" := VInt 936]> (<["acc_rate" := VFloat "0.06"]>
     (<["conv_rate" := VFloat "0.47"]>
        (delete "driver_id" ({[ "driver_id" := VInt 1001 ]} : gmap string value)))))
    !! "driver_id" = None /\
  is_Some
    ((<["payment_rejects_1d_per_user" := VFloat "15.0"]>
        (<["account_country" := VStr "GB"]> (<["account_age" := VFloat "563.0"]>
           (<["account_id" := VStr "A1829581630230790"]>
              (<["query" := VStr EmptyString]>
                 (delete "account_id"
                    ({[ "account_id" := VStr "A1829581630230790" ]}
                       : gmap string value)))))))
       !! "account_id").
Proof.
  destruct identifier_handed_on_only_by_azureml as (Hfeast & _ & _ & Hazure).
  split.
  - eapply (Hfeast {[ "driver_id" := VInt 1001 ]} Stub.feast
              [Lookup (VInt 1001); TemplateFormat _]).
    + reflexivity.
    + right. left. reflexivity.
  - eapply proj1.
    eapply (Hazure {[ "account_id" := VStr "A1829581630230790" ]} Stub.azureml
              [Lookup (VStr "A1829581630230790"); TemplateFormat _]).
    + reflexivity.
    + right. left. reflexivity.
Defined.

(** X2. Keywords of the caller other than the identifier and the names the
    method assigns itself reach the wrapped template unchanged: present ones
    with their value, absent ones absent. *)
Theorem other_keywords_passed_on :
  (forall kwargs st evs m k,
     added (Feast.format kwargs) st evs -> In (TemplateFormat m) evs ->
     k <> "driver_id" -> k <> "conv_rate" -> k <> "acc_rate" ->
     k <> "avg_daily_trips" ->
     m !! k = kwargs !! k) /\
  (forall kwargs st evs m k,
     added (Tecton.format kwargs) st evs -> In (TemplateFormat m) evs ->
     k <> "user_id" -> k <> "transaction_count_1d" ->
     k <> "transaction_count_30d" ->
     m !! k = kwargs !! k) /\
  (forall kwargs st evs m k,
     added (Featureform.format kwargs) st evs -> In (TemplateFormat m) evs ->
     k <> "user_id" ->
     m !! k = kwargs !! k) /\
  (forall kwargs st evs m k,
     added (AzureML.format kwargs) st evs -> In (TemplateFormat m) evs ->
     k <> "query" -> k <> "account_age" -> k <> "account_country" ->
     k <> "payment_rejects_1d_per_user" ->
     m !! k = kwargs !! k).
Proof.
  split; [|split; [|split]].
  - intros kwargs st evs m k Hadd Hin Hid Hconv Hacc Havg.
    destruct (feast_run_shape kwargs st) as (evs' & Hadd' & Hshape).
    rewrite (added_unique _ _ _ _ Hadd Hadd') in Hin. handed Hin.
    by rewrite !lookup_insert_ne, lookup_delete_ne.
  - intros kwargs st evs m k Hadd Hin Hid H1d H30d.
    destruct (tecton_run_shape kwargs st) as (evs' & Hadd' & Hshape).
    rewrite (added_unique _ _ _ _ Hadd Hadd') in Hin. handed Hin.
    by rewrite !lookup_insert_ne, lookup_delete_ne.
  - intros kwargs st evs m k Hadd Hin Hid.
    destruct (featureform_run_shape kwargs st) as (evs' & Hadd' & Hshape).
    rewrite (added_unique _ _ _ _ Hadd Hadd') in Hin. handed Hin.
    by rewrite lookup_delete_ne.
  - intros kwargs st evs m k Hadd Hin Hquery Hage Hcountry Hrejects.
    destruct (azureml_run_shape kwargs st) as (evs' & Hadd' & Hshape).
    rewrite (added_unique _ _ _ _ Hadd Hadd') in Hin. handed Hin.
    rewrite !(lookup_insert_ne _ _ k) by done.
    destruct (decide (k = "account_id")) as [->|Hid].
    + by rewrite lookup_insert_eq.
    + by rewrite lookup_insert_ne, !lookup_insert_ne, lookup_delete_ne.
Qed.

Lemma other_keywords_passed_on_witness :
  (<["avg_daily_trips" := VInt 936]> (<["acc_rate" := VFloat "0.06"]>
     (<["conv_rate" := VFloat "0.47"]>
        (delete "driver_id"
           ({[ "driver_id" := VInt 1001; "tone" := VStr "formal" ]}
              : gmap string value)))))
    !! "tone"
  = ({[ "driver_id" := VInt 1001; "tone" := VStr "formal" ]} : gmap string value)
      !! "tone".
Proof.
  destruct other_keywords_passed_on as (Hfeast & _).
  eapply (Hfeast {[ "driver_id" := VInt 1001; "tone" := VStr "formal" ]} Stub.feast
            [Lookup (VInt 1001); TemplateFormat _]).
  - reflexivity.
  - right. left. reflexivity.
  - discriminate.
  - discriminate.
  - discriminate.
  - discriminate.
Defined.

(** X3. A call appends to the trace nothing, or one lookup, or one lookup
    followed by one call of the wrapped template; a lookup is made only for
    the identifier found in the keyword mapping. So the template is called at
    most once per call, never before the lookup and never without it, in all
    four adapters, Featureform included although it drops what it looked up. *)
Theorem template_called_after_lookup :
  (forall kwargs st, exists evs,
     added (Feast.format kwargs) st evs /\
     (evs = [] \/
      exists id, kwargs !! "driver_id" = Some id /\
        (evs = [Lookup id] \/ exists m, evs = [Lookup id; TemplateFormat m]))) /\
  (forall kwargs st, exists evs,
     added (Tecton.format kwargs) st evs /\
     (evs = [] \/
      exists id, kwargs !! "user_id" = Some id /\
        (evs = [Lookup id] \/ exists m, evs = [Lookup id; TemplateFormat m]))) /\
  (forall kwargs st, exists evs,
     added (Featureform.format kwargs) st evs /\
     (evs = [] \/
      exists id, kwargs !! "user_id" = Some id /\
        (evs = [Lookup id] \/ exists m, evs = [Lookup id; TemplateFormat m]))) /\
  (forall kwargs st, exists evs,
     added (AzureML.format kwargs) st evs /\
     (evs = [] \/
      exists id, kwargs !! "account_id" = Some id /\
        (evs = [Lookup id] \/ exists m, evs = [Lookup id; TemplateFormat m]))).
Proof.
  split; [|split; [|split]]; intros kwargs st.
  - destruct (feast_run_shape kwargs st)
      as (evs & Hadd & [[-> _]|(id & Hid & [[-> _]|(a & b & c & -> & _)])]);
      eauto 10.
  - destruct (tecton_run_shape kwargs st)
      as (evs & Hadd & [[-> _]|(id & Hid & [[-> _]|(a & b & -> & _)])]);
      eauto 10.
  - destruct (featureform_run_shape kwargs st)
      as (evs & Hadd & [[-> _]|(id & Hid & [[-> _]|(-> & _)])]);
      eauto 10.
  - destruct (azureml_run_shape kwargs st)
      as (evs & Hadd & [[-> _]|(id & Hid & [[-> _]|(a & c & r & -> & _)])]);
      eauto 10.
Qed.

(** X4. A text returned by [format] is the text the wrapped template returned:
    the call made one lookup for the caller's identifier, then one call of the
    template, and returns that call's result unchanged. *)
Theorem text_comes_from_template :
  (forall kwargs st out, fst (Feast.format kwargs st) = Ok out ->
     exists id m, kwargs !! "driver_id" = Some id /\
       added (Feast.format kwargs) st [Lookup id; TemplateFormat m] /\
       PromptTemplate.format (Feast.prompt (globals st)) m = Ok out) /\
  (forall kwargs st out, fst (Tecton.format kwargs st) = Ok out ->
     exists id m, kwargs !! "user_id" = Some id /\
       added (Tecton.format kwargs) st [Lookup id; TemplateFormat m] /\
       PromptTemplate.format (Tecton.prompt (globals st)) m = Ok out) /\
  (forall kwargs st out, fst (Featureform.format kwargs st) = Ok out ->
     exists id m, kwargs !! "user_id" = Some id /\
       added (Featureform.format kwargs) st [Lookup id; TemplateFormat m] /\
       PromptTemplate.format (Featureform.prompt (globals st)) m = Ok out) /\
  (forall kwargs st out, fst (AzureML.format kwargs st) = Ok out ->
     exists id m, kwargs !! "account_id" = Some id /\
       added (AzureML.format kwargs) st [Lookup id; TemplateFormat m] /\
       PromptTemplate.format (AzureML.prompt (globals st)) m = Ok out).
Proof.
  split; [|split; [|split]]; intros kwargs st out Hok.
  - destruct (feast_run_shape kwargs st)
      as (evs & Hadd & [[_ [e He]]|(id & Hid & [[_ [e He]]|(a & b & c & -> & Hr)])]);
      try congruence.
    exists id. eexists. split; [done|]. split; [exact Hadd|congruence].
  - destruct (tecton_run_shape kwargs st)
      as (evs & Hadd & [[_ [e He]]|(id & Hid & [[_ [e He]]|(a & b & -> & Hr)])]);
      try congruence.
    exists id. eexists. split; [done|]. split; [exact Hadd|congruence].
  - destruct (featureform_run_shape kwargs st)
      as (evs & Hadd & [[_ [e He]]|(id & Hid & [[_ [e He]]|(-> & Hr)])]);
      try congruence.
    exists id. eexists. split; [done|]. split; [exact Hadd|congruence].
  - destruct (azureml_run_shape kwargs st)
      as (evs & Hadd & [[_ [e He]]|(id & Hid & [[_ [e He]]|(a & c & r & -> & Hr)])]);
      try congruence.
    exists id. eexists. split; [done|]. split; [exact Hadd|congruence].
Qed.

Lemma text_comes_from_template_witness :
  exists id m,
    ({[ "user_id" := VStr "user_469998441571" ]} : gmap string value) !! "user_id"
      = Some id /\
    added (Tecton.format {[ "user_id" := VStr "user_469998441571" ]}) Stub.tecton
      [Lookup id; TemplateFormat m] /\
    PromptTemplate.format (Tecton.prompt (globals Stub.tecton)) m =
      Ok (Expected.tecton (VInt 657) (VInt 20326)).
Proof.
  destruct text_comes_from_template as (_ & Htecton & _).
  apply (Htecton {[ "user_id" := VStr "user_469998441571" ]} Stub.tecton).
  vm_compute. reflexivity.
Defined.

(** ** Incomplete answers of the store *)

(** X5. Feast: when the store answers but one of the three columns is missing
    from the answer or holds no row, [format] fails with the error of the
    first such column in the order [conv_rate], [acc_rate], [avg_daily_trips]
    ([KeyError] for a missing column, [IndexError] for an empty one), and the
    wrapped template is not called. *)
Theorem feast_incomplete_answer kwargs st id fv e :
  kwargs !! "driver_id" = Some id ->
  Feast.store (globals st) Feast.features (Feast.entity_rows id) = Ok fv ->
  first_unreadable (feast_cell_error fv) feast_columns = Some e ->
  fails_before_template (Feast.format kwargs) st e.
Proof.
  destruct st as [g tr]. cbn [globals]. intros Hid Hstore.
  unfold fails_before_template, feast_columns, feast_cell_error.
  cbn [first_unreadable]. run. rewrite Hid. run. rewrite Hstore. run.
  intros He. by_cases.
Qed.

Lemma feast_incomplete_answer_witness :
  fails_before_template (Feast.format {[ "driver_id" := VInt 1001 ]})
    Partial.feast (IndexError "list index out of range").
Proof.
  apply (feast_incomplete_answer {[ "driver_id" := VInt 1001 ]} Partial.feast
           (VInt 1001)
           {[ "conv_rate" := [VFloat "0.47"]; "acc_rate" := [] ]}).
  - reflexivity.
  - reflexivity.
  - reflexivity.
Defined.

(** X6. Tecton: when the store answers without one of the two qualified
    feature names the method reads, [format] fails with the [KeyError] of the
    first missing one, named as the store names it, and the wrapped template
    is not called. *)
Theorem tecton_incomplete_answer kwargs st id fv e :
  kwargs !! "user_id" = Some id ->
  Tecton.feature_service (globals st) (Tecton.join_keys id) = Ok fv ->
  first_unreadable (tecton_cell_error fv) tecton_keys = Some e ->
  fails_before_template (Tecton.format kwargs) st e.
Proof.
  destruct st as [g tr]. cbn [globals]. intros Hid Hstore.
  unfold fails_before_template, tecton_keys, tecton_cell_error.
  cbn [first_unreadable]. run. rewrite Hid. run. rewrite Hstore. run.
  intros He. by_cases.
Qed.

Lemma tecton_incomplete_answer_witness :
  fails_before_template (Tecton.format {[ "user_id" := VStr "user_469998441571" ]})
    Partial.tecton
    (KeyError (VStr "user_transaction_counts.transaction_count_30d_1d")).
Proof.
  apply (tecton_incomplete_answer {[ "user_id" := VStr "user_469998441571" ]}
           Partial.tecton (VStr "user_469998441571")
           {[ "user_transaction_counts.transaction_count_1d_1d" := VInt 657 ]}).
  - reflexivity.
  - reflexivity.
  - reflexivity.
Defined.

(** X7. AzureML: when the store answers with a frame in which one of the
    three columns is missing or has no row, [format] fails with the error of
    the first such column in the order [accountAge], [accountCountry],
    [numPaymentRejects1dPerUser], whether or not a query was passed, and the
    wrapped template is not called. *)
Theorem azureml_incomplete_answer kwargs st id df e :
  kwargs !! "account_id" = Some id ->
  AzureML.feature_set (globals st) (AzureML.obs id) = Ok df ->
  first_unreadable (azureml_cell_error df) azureml_columns = Some e ->
  fails_before_template (AzureML.format kwargs) st e.
Proof.
  destruct st as [g tr]. cbn [globals]. intros Hid Hstore.
  unfold fails_before_template, azureml_columns, azureml_cell_error.
  cbn [first_unreadable]. run. rewrite Hid. run.
  destruct (delete "account_id" kwargs !! "query"); run; rewrite Hstore; run;
    intros He; by_cases.
Qed.

Lemma azureml_incomplete_answer_witness :
  fails_before_template
    (AzureML.format {[ "account_id" := VStr "A1829581630230790" ]})
    Partial.azureml (KeyError (VInt 0)).
Proof.
  apply (azureml_incomplete_answer {[ "account_id" := VStr "A1829581630230790" ]}
           Partial.azureml (VStr "A1829581630230790")
           {[ "accountAge" := [VFloat "563.0"]; "accountCountry" := [] ]}).
  - reflexivity.
  - reflexivity.
  - reflexivity.
Defined.

(** ** Whose values reach the text *)

Lemma tecton_prompt_parsed :
  Tecton.prompt_cell =
  Ok [PromptTemplate.Text
"Given the vendor's up to date transaction stats, write them a note based on the following rules:

1. If they had a transaction in the last day, write a short congratulations message on their recent sales
2. If no transaction in the last day, but they had a transaction in the last 30 days, playfully encourage them to sell more.
3. Always add a silly joke about chickens at the end

Here are the vendor's stats:
Number of Transactions Last Day: ";
      PromptTemplate.Placeholder "transaction_count_1d";
      PromptTemplate.Text "
Number of Transactions Last 30 Days: ";
      PromptTemplate.Placeholder "transaction_count_30d";
      PromptTemplate.Text "

Your response:"].
Proof. vm_compute. reflexivity. Qed.

Lemma tecton_merge_agree (m m' : gmap string value) a b :
  (forall k, k <> "transaction_count_1d" -> k <> "transaction_count_30d" ->
     m' !! k = m !! k) ->
  <["transaction_count_30d" := b]> (<["transaction_count_1d" := a]>
    (delete "user_id" m')) =
  <["transaction_count_30d" := b]> (<["transaction_count_1d" := a]>
    (delete "user_id" m)).
Proof.
  intros Hagree. apply map_eq. intros k.
  destruct (decide (k = "transaction_count_30d")) as [->|H30d].
  { by rewrite !lookup_insert_eq. }
  rewrite !(lookup_insert_ne _ "transaction_count_30d") by done.
  destruct (decide (k = "transaction_count_1d")) as [->|H1d].
  { by rewrite !lookup_insert_eq. }
  rewrite !(lookup_insert_ne _ "transaction_count_1d") by done.
  destruct (decide (k = "user_id")) as [->|Hid].
  { by rewrite !lookup_delete_eq. }
  rewrite !lookup_delete_ne by done. by apply Hagree.
Qed.

(** X8. Tecton: with [user_id] given and both counts in the store's answer,
    [format] returns the pattern with the looked-up counts, whatever else the
    caller passed; in particular a caller's own [transaction_count_1d] or
    [transaction_count_30d] is overwritten, and two calls whose keyword
    mappings differ only on these two names behave alike. *)
Theorem tecton_lookup_overrides_caller kwargs st id fv count_1d count_30d :
  Tecton.prompt_cell = Ok (Tecton.prompt (globals st)) ->
  kwargs !! "user_id" = Some id ->
  Tecton.feature_service (globals st) (Tecton.join_keys id) = Ok fv ->
  fv !! "user_transaction_counts.transaction_count_1d_1d" = Some count_1d ->
  fv !! "user_transaction_counts.transaction_count_30d_1d" = Some count_30d ->
  fst (Tecton.format kwargs st) = Ok (Expected.tecton count_1d count_30d) /\
  forall kwargs',
    (forall k, k <> "transaction_count_1d" -> k <> "transaction_count_30d" ->
       kwargs' !! k = kwargs !! k) ->
    Tecton.format kwargs' st = Tecton.format kwargs st.
Proof.
  destruct st as [g tr]. cbn [globals].
  rewrite tecton_prompt_parsed. intros [= Hp] Hid Hstore H1d H30d. split.
  - run. rewrite Hid. run. rewrite Hstore. run. rewrite H1d, H30d. run.
    rewrite <- Hp. cbn [PromptTemplate.format]. lookup_inserts. reflexivity.
  - intros kwargs' Hagree.
    run. rewrite (Hagree "user_id") by done. rewrite Hid. run.
    rewrite Hstore. run. rewrite H1d, H30d. run.
    by rewrite (tecton_merge_agree kwargs kwargs' count_1d count_30d Hagree).
Qed.

Lemma tecton_lookup_overrides_caller_witness :
  fst (Tecton.format {[ "user_id" := VStr "user_469998441571";
                        "transaction_count_1d" := VInt 0 ]} Stub.tecton)
    = Ok (Expected.tecton (VInt 657) (VInt 20326)) /\
  forall kwargs',
    (forall k, k <> "transaction_count_1d" -> k <> "transaction_count_30d" ->
       kwargs' !! k =
       ({[ "user_id" := VStr "user_469998441571";
           "transaction_count_1d" := VInt 0 ]} : gmap string value) !! k) ->
    Tecton.format kwargs' Stub.tecton =
    Tecton.format {[ "user_id" := VStr "user_469998441571";
                     "transaction_count_1d" := VInt 0 ]} Stub.tecton.
Proof.
  apply (tecton_lookup_overrides_caller
           {[ "user_id" := VStr "user_469998441571";
              "transaction_count_1d" := VInt 0 ]}
           Stub.tecton (VStr "user_469998441571")
           {[ "user_transaction_counts.transaction_count_1d_1d" := VInt 657;
              "user_transaction_counts.transaction_count_30d_1d" := VInt 20326 ]}
           (VInt 657) (VInt 20326)).
  - vm_compute. reflexivity.
  - reflexivity.
  - reflexivity.
  - reflexivity.
  - reflexivity.
Defined.

(** X9. Featureform: the amount in the text is the caller's. With [user_id]
    and [avg_transcation] both passed and the lookup succeeding, [format]
    returns the pattern with the caller's [avg_transcation], whatever value
    the store returned. *)
Theorem featureform_text_uses_caller_value kwargs st id fpf amount :
  Featureform.prompt_cell = Ok (Featureform.prompt (globals st)) ->
  kwargs !! "user_id" = Some id ->
  kwargs !! "avg_transcation" = Some amount ->
  Featureform.client (globals st) [("avg_transactions", "quickstart")]
    {[ "user" := id ]} = Ok fpf ->
  fst (Featureform.format kwargs st) = Ok (Expected.featureform amount).
Proof.
  destruct st as [g tr]. cbn [globals].
  rewrite featureform_prompt_parsed. intros [= Hp] Hid Hamount Hup.
  run. rewrite Hid. run. rewrite Hup. run.
  rewrite <- Hp. cbn [PromptTemplate.format].
  rewrite lookup_delete_ne by done. rewrite Hamount. reflexivity.
Qed.

Lemma featureform_text_uses_caller_value_witness :
  fst (Featureform.format {[ "user_id" := VStr "C1410926";
                             "avg_transcation" := VInt 7 ]} Stub.featureform)
  = Ok (Expected.featureform (VInt 7)).
Proof.
  apply (featureform_text_uses_caller_value
           {[ "user_id" := VStr "C1410926"; "avg_transcation" := VInt 7 ]}
           Stub.featureform (VStr "C1410926") [VFloat "25.0"] (VInt 7)).
  - vm_compute. reflexivity.
  - reflexivity.
  - reflexivity.
  - reflexivity.
Defined.

Lemma azureml_merge_agree (m m' : gmap string value) id q a c r :
  (forall k, k <> "account_age" -> k <> "account_country" ->
     k <> "payment_rejects_1d_per_user" -> m' !! k = m !! k) ->
  <["payment_rejects_1d_per_user" := r]> (<["account_country" := c]>
    (<["account_age" := a]> (<["account_id" := id]> (<["query" := q]>
       (delete "account_id" m'))))) =
  <["payment_rejects_1d_per_user" := r]> (<["account_country" := c]>
    (<["account_age" := a]> (<["account_id" := id]> (<["query" := q]>
       (delete "account_id" m))))).
Proof.
  intros Hagree. apply map_eq. intros k.
  destruct (decide (k = "payment_rejects_1d_per_user")) as [->|Hr].
  { by rewrite !lookup_insert_eq. }
  rewrite !(lookup_insert_ne _ "payment_rejects_1d_per_user") by done.
  destruct (decide (k = "account_country")) as [->|Hc].
  { by rewrite !lookup_insert_eq. }
  rewrite !(lookup_insert_ne _ "account_country") by done.
  destruct (decide (k = "account_age")) as [->|Ha].
  { by rewrite !lookup_insert_eq. }
  rewrite !(lookup_insert_ne _ "account_age") by done.
  destruct (decide (k = "account_id")) as [->|Hid].
  { by rewrite !lookup_insert_eq. }
  rewrite !(lookup_insert_ne _ "account_id") by done.
  destruct (decide (k = "query")) as [->|Hq].
  { by rewrite !lookup_insert_eq. }
  rewrite !(lookup_insert_ne _ "query") by done.
  rewrite !lookup_delete_ne by done. by apply Hagree.
Qed.

(** X10. AzureML: a caller's own [account_age], [account_country] or
    [payment_rejects_1d_per_user] never reaches the template. Two calls whose
    keyword mappings differ only on these three names return the same result
    and leave the same trace, whatever the store answers. *)
Theorem azureml_lookup_overrides_caller kwargs kwargs' st :
  (forall k, k <> "account_age" -> k <> "account_country" ->
     k <> "payment_rejects_1d_per_user" -> kwargs' !! k = kwargs !! k) ->
  AzureML.format kwargs' st = AzureML.format kwargs st.
Proof.
  intros Hagree. destruct st as [g tr]. run.
  rewrite (Hagree "account_id") by done.
  destruct (kwargs !! "account_id") as [id|]; run; [|done].
  rewrite !(lookup_delete_ne _ "account_id" "query") by done.
  rewrite (Hagree "query") by done.
  destruct (kwargs !! "query") as [q|]; run.
  - rewrite !insert_delete_eq.
    all_cases; by rewrite (azureml_merge_agree kwargs kwargs' _ _ _ _ _ Hagree).
  - all_cases; by rewrite (azureml_merge_agree kwargs kwargs' _ _ _ _ _ Hagree).
Qed.

Lemma azureml_lookup_overrides_caller_witness :
  AzureML.format {[ "account_id" := VStr "A1829581630230790";
                    "account_country" := VStr "FR" ]} Stub.azureml =
  AzureML.format {[ "account_id" := VStr "A1829581630230790" ]} Stub.azureml.
Proof.
  apply (azureml_lookup_overrides_caller
           {[ "account_id" := VStr "A1829581630230790" ]}
           {[ "account_id" := VStr "A1829581630230790";
              "account_country" := VStr "FR" ]} Stub.azureml).
  intros k Hage Hcountry Hrejects.
  destruct (decide (k = "account_id")) as [->|Hid].
  - reflexivity.
  - rewrite lookup_insert_ne by done.
    by rewrite !lookup_singleton_ne.
Defined.

(** ** When a call returns text *)







(** ** The global [prompt] is read when a method runs *)

Lemma bind_prompt_run pat p (st : state Notebook.namespace) :
  PromptTemplate.from_template pat = Ok p ->
  Notebook.bind_prompt pat st =
    (Ok tt,
     State (Notebook.Namespace (Notebook.store (globals st))
              (Notebook.feature_service (globals st))
              (Notebook.client (globals st)) p)
           (trace st)).
Proof. unfold Notebook.bind_prompt. by intros ->. Qed.

(** X14. The Feast method looks the global [prompt] up when it is called.
    Called after the Feast template cell it returns the Feast pattern with the
    looked-up statistics; called after the Tecton template cell has rebound
    [prompt] it hands the same statistics to the Tecton pattern and fails with
    the missing-key error for [transaction_count_1d], unless the caller
    happens to pass that name. *)
Theorem feast_format_uses_latest_prompt kwargs st id fv a la b lb c lc :
  kwargs !! "driver_id" = Some id ->
  Notebook.store (globals st) Feast.features (Feast.entity_rows id) = Ok fv ->
  fv !! "conv_rate" = Some (a :: la) ->
  fv !! "acc_rate" = Some (b :: lb) ->
  fv !! "avg_daily_trips" = Some (c :: lc) ->
  fst ((_ ← Notebook.feast_template_cell; Notebook.feast_format kwargs) st)
    = Ok (Feast.rendered a b c) /\
  (kwargs !! "transaction_count_1d" = None ->
   fst ((_ ← Notebook.tecton_template_cell; Notebook.feast_format kwargs) st)
     = Raise (KeyError (VStr "transaction_count_1d"))).
Proof.
  intros Hid Hstore Ha Hb Hc. destruct st as [ns tr]. cbn [globals] in Hstore.
  split.
  - unfold Notebook.feast_template_cell, Notebook.feast_format, Notebook.within.
    cbv beta iota zeta delta [mbind M_bind bind].
    rewrite (bind_prompt_run _ _ _ feast_prompt_parsed). cbn [globals trace].
    match goal with
    | |- context [Feast.format kwargs ?s] =>
        pose proof (feast_format_rendered kwargs s id fv a b c la lb lc
                      feast_prompt_parsed Hid Hstore Ha Hb Hc) as Hrun;
        destruct (Feast.format kwargs s) as [r s']
    end.
    exact Hrun.
  - intros Hnone.
    unfold Notebook.tecton_template_cell, Notebook.feast_format, Notebook.within.
    cbv beta iota zeta delta [mbind M_bind bind].
    rewrite (bind_prompt_run _ _ _ tecton_prompt_parsed). cbn [globals trace].
    unfold Notebook.feast_names. cbn [Notebook.store Notebook.prompt].
    run. rewrite Hid. run. cbn [Feast.store Feast.prompt].
    rewrite Hstore. run. rewrite Ha, Hb, Hc. run.
    cbn [Feast.prompt PromptTemplate.format].
    rewrite !lookup_insert_ne by done. rewrite lookup_delete_ne by done.
    by rewrite Hnone.
Qed.

Lemma feast_format_uses_latest_prompt_witness :
  fst ((_ ← Notebook.feast_template_cell;
        Notebook.feast_format {[ "driver_id" := VInt 1001 ]}) Partial.notebook)
    = Ok (Feast.rendered (VFloat "0.47") (VFloat "0.06") (VInt 936)) /\
  fst ((_ ← Notebook.tecton_template_cell;
        Notebook.feast_format {[ "driver_id" := VInt 1001 ]}) Partial.notebook)
    = Raise (KeyError (VStr "transaction_count_1d")).
Proof.
  destruct (feast_format_uses_latest_prompt {[ "driver_id" := VInt 1001 ]}
              Partial.notebook (VInt 1001) (Feast.single_row Stub.driver_stats)
              (VFloat "0.47") [] (VFloat "0.06") [] (VInt 936) [])
    as (Hfeast & Htecton); try reflexivity.
  split; [exact Hfeast|]. apply Htecton. reflexivity.
Defined.

(** X15. Featureform: the looked-up value is never used. Two calls with the
    same keywords and the same pattern return the same result whenever both
    lookups succeed, whatever the two stores returned. *)
Theorem featureform_ignores_looked_up_value kwargs st st' id fpf fpf' :
  Featureform.prompt (globals st') = Featureform.prompt (globals st) ->
  kwargs !! "user_id" = Some id ->
  Featureform.client (globals st) [("avg_transactions", "quickstart")]
    {[ "user" := id ]} = Ok fpf ->
  Featureform.client (globals st') [("avg_transactions", "quickstart")]
    {[ "user" := id ]} = Ok fpf' ->
  fst (Featureform.format kwargs st') = fst (Featureform.format kwargs st).
Proof.
  destruct st as [g tr], st' as [g' tr']. cbn [globals].
  intros Hprompt Hid Hup Hup'.
  run. rewrite Hid. run. rewrite Hup, Hup'. run. by rewrite Hprompt.
Qed.

Lemma featureform_ignores_looked_up_value_witness :
  fst (Featureform.format
         {[ "user_id" := VStr "C1410926"; "avg_transcation" := VInt 7 ]}
         (State (Featureform.Globals (fun _ _ => Ok [VFloat "99.5"])
                   (Stub.parsed Featureform.template)) [])) =
  fst (Featureform.format
         {[ "user_id" := VStr "C1410926"; "avg_transcation" := VInt 7 ]}
         Stub.featureform).
Proof.
  apply (featureform_ignores_looked_up_value
           {[ "user_id" := VStr "C1410926"; "avg_transcation" := VInt 7 ]}
           Stub.featureform
           (State (Featureform.Globals (fun _ _ => Ok [VFloat "99.5"])
                     (Stub.parsed Featureform.template)) [])
           (VStr "C1410926") [VFloat "25.0"] [VFloat "99.5"]).
  - reflexivity.
  - reflexivity.
  - reflexivity.
  - reflexivity.
Defined.
